(** * Solana trading bot prototypes (v1 .. v6): evaluation and position lifecycle

    A shallow embedding of the Python scripts [solana_bot_v1.py],
    [solana_bot_v5_gpt.py] and [solana_bot_v6_gpt.py].

    - Python values read from the feed are JSON values ([json]).
    - A Python [float] is an IEEE 754 binary64 number: Rocq's primitive
      [float], with the same arithmetic and the same comparisons (every
      comparison with NaN is false).
    - A Python function is a computation in the monad [M]: it returns a value
      or raises an exception, and it leaves a trace of the helper functions it
      entered and of the lines it printed.
    - The conversion of a string to a float ([float(s)] on a [str]) belongs to
      the Python runtime; it is a section variable [float_of_str]. *)

From Stdlib Require Import ZArith List String Ascii Bool Lia Floats.
Import ListNotations.

Set Warnings "-inexact-float,-register-all".
Local Open Scope string_scope.

(* ===================================================================== *)
(** ** Python values, exceptions and traces *)
(* ===================================================================== *)

Inductive json : Type :=
| JNull
| JBool (b : bool)
| JInt (z : Z)
| JFloat (f : float)
| JStr (s : string)
| JList (l : list json)
| JDict (d : list (string * json)).

(** The exceptions that occur; all of them derive from [Exception]. *)
Inductive exn : Type :=
| AttributeError | TypeError | ValueError | OverflowError | NameError
| OSError | JSONDecodeError | RequestException | RPCError.

Inductive result (A : Type) : Type :=
| Ok (a : A)
| Raise (e : exn).
Arguments Ok {A} a.
Arguments Raise {A} e.

(** What a run leaves behind: the named functions it entered and the
    messages it printed (the constant prefix of each message). *)
Inductive event : Type :=
| Call (f : string)
| Print (msg : string).

Definition trace := list event.

Definition M (A : Type) : Type := (trace * result A)%type.

Definition ret {A} (a : A) : M A := ([], Ok a).
Definition raise {A} (e : exn) : M A := ([], Raise e).
Definition lift {A} (r : result A) : M A := ([], r).
Definition emit (ev : event) : M unit := ([ev], Ok tt).
Definition call (f : string) : M unit := emit (Call f).
Definition print (msg : string) : M unit := emit (Print msg).

Definition bind {A B} (m : M A) (k : A -> M B) : M B :=
  match m with
  | (tr, Ok a) => let (tr', r) := k a in ((tr ++ tr')%list, r)
  | (tr, Raise e) => (tr, Raise e)
  end.

Notation "x <- m ;; k" := (bind m (fun x => k))
  (at level 100, m at level 99, k at level 200, right associativity).
Notation "m ;;; k" := (bind m (fun _ => k))
  (at level 100, k at level 200, right associativity).

(** [try: body except Exception as e: handler]. *)
Definition try_except {A} (body : M A) (handler : exn -> M A) : M A :=
  match body with
  | (tr, Ok a) => (tr, Ok a)
  | (tr, Raise e) => let (tr', r) := handler e in ((tr ++ tr')%list, r)
  end.

Definition events {A} (m : M A) : trace := fst m.
Definition outcome {A} (m : M A) : result A := snd m.


(** [a or b] and [a and b] on conditions, with Python's short circuit. *)
Definition orM (a b : M bool) : M bool :=
  x <- a ;; if x then ret true else b.
Definition notM (a : M bool) : M bool :=
  x <- a ;; ret (negb x).

Fixpoint mapM {A B} (f : A -> M B) (l : list A) : M (list B) :=
  match l with
  | [] => ret []
  | x :: r => y <- f x ;; ys <- mapM f r ;; ret (y :: ys)
  end.

(* ===================================================================== *)
(** ** The Python runtime on JSON values *)
(* ===================================================================== *)

Fixpoint assoc (k : string) (d : list (string * json)) : option json :=
  match d with
  | [] => None
  | (k', v) :: r => if String.eqb k k' then Some v else assoc k r
  end.

(** [obj.get(k, default)]: only a dict has the method. *)
Definition py_get (obj : json) (k : string) (default : json) : result json :=
  match obj with
  | JDict d => Ok (match assoc k d with Some v => v | None => default end)
  | _ => Raise AttributeError
  end.

(** [obj[k] = v] on a dict: replaces the entry or appends a new one. *)
Fixpoint dict_set (k : string) (v : json) (d : list (string * json))
  : list (string * json) :=
  match d with
  | [] => [(k, v)]
  | (k', v') :: r =>
      if String.eqb k k' then (k, v) :: r else (k', v') :: dict_set k v r
  end.

Definition py_setitem (obj : json) (k : string) (v : json) : result json :=
  match obj with
  | JDict d => Ok (JDict (dict_set k v d))
  | _ => Raise TypeError
  end.

(** Truth value of an object ([bool(x)]): NaN is true, both zeros are false. *)
Definition py_truthy (v : json) : bool :=
  match v with
  | JNull => false
  | JBool b => b
  | JInt z => negb (Z.eqb z 0)
  | JFloat f => negb (f =? 0)%float
  | JStr s => negb (String.eqb s "")
  | JList l => match l with [] => false | _ => true end
  | JDict d => match d with [] => false | _ => true end
  end.

(** [a or b] on values. *)
Definition py_or (a b : json) : json := if py_truthy a then a else b.

(** [float(n)] for an [int]: rounded to nearest even, [OverflowError] when
    the integer is beyond the binary64 range. *)
Definition float_of_Z (z : Z) : result float :=
  let f := SF2Prim (binary_normalize prec emax z 0 false) in
  if (abs f =? infinity)%float then Raise OverflowError else Ok f.

Definition lower_ascii (c : ascii) : ascii :=
  let n := nat_of_ascii c in
  if andb (Nat.leb 65 n) (Nat.leb n 90) then ascii_of_nat (n + 32) else c.

(** [s.lower()] on a string of ASCII characters: the letters A to Z are
    lowered.  On other strings Python also lowers the cased letters outside
    ASCII, which this function leaves as they are; what is stated of
    [s.lower()] below is stated of [ascii_only] strings. *)
Fixpoint lower (s : string) : string :=
  match s with
  | EmptyString => EmptyString
  | String c r => String (lower_ascii c) (lower r)
  end.

(** The strings whose characters are all ASCII (codes below 128). *)
Fixpoint ascii_only (s : string) : bool :=
  match s with
  | EmptyString => true
  | String c r => andb (Nat.ltb (nat_of_ascii c) 128) (ascii_only r)
  end.

Definition py_lower (v : json) : result string :=
  match v with
  | JStr s => Ok (lower s)
  | _ => Raise AttributeError
  end.

Fixpoint chars (s : string) : list json :=
  match s with
  | EmptyString => []
  | String c r => JStr (String c EmptyString) :: chars r
  end.

(** The elements a [for] loop or a comprehension goes through. *)
Definition py_iter (v : json) : result (list json) :=
  match v with
  | JList l => Ok l
  | JDict d => Ok (map (fun kv => JStr (fst kv)) d)
  | JStr s => Ok (chars s)
  | _ => Raise TypeError
  end.

Definition str_in (s : string) (l : list string) : bool :=
  existsb (String.eqb s) l.


(** *** Equality of values ([a == b])

    Numbers compare by value across [bool], [int] and [float]; an [int] and a
    [float] are compared exactly. *)
Definition Z_eq_float (z : Z) (f : float) : bool :=
  match Prim2SF f with
  | S754_zero _ => Z.eqb z 0
  | S754_finite s m e =>
      let mz := if s then Zneg m else Zpos m in
      match e with
      | Z0 => Z.eqb z mz
      | Zpos _ => Z.eqb z (mz * 2 ^ e)
      | Zneg p => andb (Z.eqb (mz mod 2 ^ Zpos p) 0) (Z.eqb z (mz / 2 ^ Zpos p))
      end
  | _ => false
  end.

Definition Z_of_bool (b : bool) : Z := if b then 1%Z else 0%Z.

Fixpoint py_eq (a b : json) {struct a} : bool :=
  match a, b with
  | JNull, JNull => true
  | JBool x, JBool y => Bool.eqb x y
  | JBool x, JInt z => Z.eqb (Z_of_bool x) z
  | JBool x, JFloat f => Z_eq_float (Z_of_bool x) f
  | JInt z, JBool y => Z.eqb z (Z_of_bool y)
  | JInt z, JInt z' => Z.eqb z z'
  | JInt z, JFloat f => Z_eq_float z f
  | JFloat f, JBool y => Z_eq_float (Z_of_bool y) f
  | JFloat f, JInt z => Z_eq_float z f
  | JFloat f, JFloat g => (f =? g)%float
  | JStr s, JStr s' => String.eqb s s'
  | JList l, JList l' =>
      (fix go (l l' : list json) {struct l} : bool :=
         match l, l' with
         | [], [] => true
         | x :: r, y :: r' => andb (py_eq x y) (go r r')
         | _, _ => false
         end) l l'
  | JDict d, JDict d' =>
      andb (Nat.eqb (List.length d) (List.length d'))
        ((fix go (d : list (string * json)) {struct d} : bool :=
            match d with
            | [] => true
            | (k, v) :: r =>
                andb (match assoc k d' with Some v' => py_eq v v' | None => false end)
                     (go r)
            end) d)
  | _, _ => false
  end.

(** *** A [set] of hashable values

    The elements in insertion order, without repetition up to [==].  A list
    or a dict is not hashable. *)
Definition hashable (v : json) : bool :=
  match v with
  | JList _ | JDict _ => false
  | _ => true
  end.

Definition pyset := list json.

Definition set_mem (v : json) (s : pyset) : result bool :=
  if hashable v then Ok (existsb (py_eq v) s) else Raise TypeError.

Definition set_add (v : json) (s : pyset) : result pyset :=
  if hashable v then Ok (if existsb (py_eq v) s then s else (s ++ [v])%list)
  else Raise TypeError.

Section Runtime.

(** [float(s)] on a string: the parsed number, or [None] for [ValueError]. *)
Variable float_of_str : string -> option float.

(** [float(x)]. *)
Definition py_float (v : json) : result float :=
  match v with
  | JNull => Raise TypeError
  | JBool b => Ok (if b then 1 else 0)%float
  | JInt z => float_of_Z z
  | JFloat f => Ok f
  | JStr s => match float_of_str s with Some f => Ok f | None => Raise ValueError end
  | JList _ => Raise TypeError
  | JDict _ => Raise TypeError
  end.

(** [float(obj.get(k, 0))]. *)
Definition get_float (obj : json) (k : string) : M float :=
  v <- lift (py_get obj k (JInt 0)) ;; lift (py_float v).

End Runtime.


(* ===================================================================== *)
(** ** What the scripts share *)
(* ===================================================================== *)

(** The answer of the market-data feed to one [requests.get]. *)
Inductive http_response : Type :=
| ConnectionFails            (* [requests.get] raises *)
| NotJson                    (* [response.json()] raises *)
| Body (data : json).        (* the parsed body *)

Definition http_get_json (r : http_response) : M json :=
  match r with
  | ConnectionFails => raise RequestException
  | NotJson => print "[DEBUG] HTTP Status Code" ;;; raise JSONDecodeError
  | Body data => print "[DEBUG] HTTP Status Code" ;;; ret data
  end.

(** An open position: [{"token": token, "buy_price": .., "quantity": ..}]. *)
Record position : Type := mkPosition {
  token : json;
  buy_price : float;
  quantity : float
}.

(** Where a run of the monitor loop stands: it left through the profit
    branch, through the stop-loss branch, or it is still polling. *)
Inductive position_state : Type :=
| Open
| Closed_Profit
| Closed_StopLoss.

(** [for t in tokens: if key(t) == addr: current_token = t; break]. *)
Fixpoint find_token (key : json -> result json) (addr : json) (tokens : list json)
  : result (option json) :=
  match tokens with
  | [] => Ok None
  | t :: r =>
      match key t with
      | Raise e => Raise e
      | Ok a => if py_eq a addr then Ok (Some t) else find_token key addr r
      end
  end.

(* ===================================================================== *)
(** ** solana_bot_v5_gpt.py *)
(* ===================================================================== *)

Module V5.

Definition RISK_AMOUNT : float := 10%float.
Definition PROFIT_TARGET_MULTIPLIER : float := 1.5%float.
Definition STOP_LOSS_RATIO : float := 0.8%float.
Definition MIN_SCORE_THRESHOLD : float := 2.0%float.

Section Bot.

Variable float_of_str : string -> option float.
(** The module constant [REAL_TRANSACTIONS] ([True] as shipped). *)
Variable REAL_TRANSACTIONS : bool.
(** What the RPC endpoint answers to [send_transaction], or its failure. *)
Variable rpc_response : result json.

Definition send_sol_transfer : M json :=
  call "send_sol_transfer" ;;;
  print "[INFO] Sending SOL transfer transaction..." ;;;
  response <- lift rpc_response ;;
  print "[INFO] Transaction response:" ;;;
  ret response.

(** [market_cap = token.get("marketCapUsd", token.get("fdvUsd", 0))], then
    [float(market_cap) if market_cap else 0]. *)
Definition market_cap_of (token : json) : M float :=
  d <- lift (py_get token "fdvUsd" (JInt 0)) ;;
  market_cap <- lift (py_get token "marketCapUsd" d) ;;
  if py_truthy market_cap
  then lift (py_float float_of_str market_cap)
  else ret 0%float.

Definition score_body (token : json) : M float :=
  market_cap <- market_cap_of token ;;
  liquidity <- get_float float_of_str token "liquidityUsd" ;;
  volume24h <- get_float float_of_str token "volumeUsd24Hr" ;;
  ret ((market_cap / 100000) + (liquidity / 50000) + (volume24h / 1000000))%float.

Definition score_token (token : json) : M float :=
  call "score_token" ;;;
  try_except (score_body token)
    (fun _ => print "[ERROR] Scoring token" ;;; ret 0%float).

Fixpoint filter_loop (min_score : float) (tokens : list json) : M (list json) :=
  match tokens with
  | [] => ret []
  | token :: rest =>
      s <- score_token token ;;
      if (min_score <=? s)%float
      then token' <- lift (py_setitem token "score" (JFloat s)) ;;
           filtered <- filter_loop min_score rest ;;
           ret (token' :: filtered)
      else filter_loop min_score rest
  end.

Definition filter_tokens (tokens : json) (min_score : float) : M (list json) :=
  call "filter_tokens" ;;;
  l <- lift (py_iter tokens) ;;
  filter_loop min_score l.

Definition execute_trade (token_address : json) (action : string) : M json :=
  call ("execute_trade:" ++ action) ;;;
  if REAL_TRANSACTIONS
  then if str_in action ["buy"; "sell"]
       then print "[REAL TRADE] order" ;;; send_sol_transfer
       else print "[REAL TRADE] Unknown action" ;;; ret JNull
  else print "[SIMULATION] Executing order" ;;; ret (JFloat 0.1).

(** The body of the [try] block of [advanced_rug_pull_check]. *)
Definition risk_body (token : json) : M bool :=
  market_cap <- market_cap_of token ;;
  if (market_cap <? 100000)%float
  then print "[FILTER] skipped: market cap < 100000" ;;; ret true
  else
    volume <- get_float float_of_str token "volumeUsd24Hr" ;;
    if (volume <? 1000)%float
    then print "[RUG CHECK] flagged as high risk (low volume)" ;;; ret true
    else
      price <- get_float float_of_str token "priceUsd" ;;
      if (price <? 0.0001)%float
      then print "[RUG CHECK] flagged as high risk (extremely low price)" ;;;
           ret true
      else ret false.

Definition advanced_rug_pull_check (token : json) : M bool :=
  call "advanced_rug_pull_check" ;;;
  try_except (risk_body token)
    (fun _ => print "[ERROR] In advanced risk analysis" ;;; ret true).

Definition buy_token (token : json) : M (option position) :=
  call "buy_token" ;;;
  token_score <- score_token token ;;
  token <- lift (py_setitem token "score" (JFloat token_score)) ;;
  skip <- orM (ret (token_score <? MIN_SCORE_THRESHOLD)%float)
              (advanced_rug_pull_check token) ;;
  if skip then print "[FILTER] skipped" ;;; ret None
  else
    token_address <- lift (py_get token "tokenAddress" JNull) ;;
    if negb (py_truthy token_address)
    then print "[BUY] Token address not found; skipping." ;;; ret None
    else
      trade_result <- execute_trade token_address "buy" ;;
      if negb (py_truthy trade_result) then ret None
      else
        let buy_price := 0.1%float in
        let quantity := (RISK_AMOUNT / buy_price)%float in
        print "[BUY]" ;;;
        ret (Some (mkPosition token buy_price quantity)).

Definition sell_token (p : position) : M json :=
  call "sell_token" ;;;
  token_address <- lift (py_get (token p) "tokenAddress" JNull) ;;
  trade_result <- execute_trade token_address "sell" ;;
  print "[SELL]" ;;;
  ret trade_result.

Definition fetch_tokens (r : http_response) : M json :=
  call "fetch_tokens" ;;;
  try_except
    (data <- http_get_json r ;;
     match data with
     | JList _ => ret data
     | JDict _ => lift (py_get data "data" (JList []))
     | _ => ret (JList [])
     end)
    (fun _ => print "[ERROR] Fetching tokens" ;;; ret (JList [])).

End Bot.
End V5.

(* ===================================================================== *)
(** ** The monitor loop (the same text in every script) *)
(* ===================================================================== *)

Section Monitor.

Variable float_of_str : string -> option float.
Variables PROFIT_TARGET_MULTIPLIER STOP_LOSS_RATIO : float.
(** How a record of the feed names its token: [t.get("tokenAddress")] from
    v3 on, [t.get("baseToken", {}).get("address")] in v1. *)
Variable address_of : json -> result json.
Variable fetch_tokens : http_response -> M json.
Variable sell_token : position -> M json.

(** One pass of the [while True] body on the record found for the token. *)
Definition monitor_decide (p : position) (target_price stop_loss_price : float)
    (current_token : json) : M position_state :=
  current_price <- get_float float_of_str current_token "priceUsd" ;;
  print "[MONITOR] current price" ;;;
  if (target_price <=? current_price)%float
  then print "[MONITOR] Profit target reached." ;;;
       sell_token p ;;; ret Closed_Profit
  else if (current_price <=? stop_loss_price)%float
  then print "[MONITOR] Stop loss triggered." ;;;
       sell_token p ;;; ret Closed_StopLoss
  else ret Open.

(** The [while True] loop, one feed answer per iteration; [Open] when the
    answers given are used up and no branch has left the loop. *)
Fixpoint monitor_loop (p : position) (token_address : json)
    (target_price stop_loss_price : float) (feed : list http_response)
  : M position_state :=
  match feed with
  | [] => ret Open
  | r :: rest =>
      tokens <- fetch_tokens r ;;
      l <- lift (py_iter tokens) ;;
      current_token <- lift (find_token address_of token_address l) ;;
      match current_token with
      | None =>
          print "[MONITOR] No updated data; retrying..." ;;;
          monitor_loop p token_address target_price stop_loss_price rest
      | Some t =>
          if negb (py_truthy t)
          then print "[MONITOR] No updated data; retrying..." ;;;
               monitor_loop p token_address target_price stop_loss_price rest
          else
            st <- monitor_decide p target_price stop_loss_price t ;;
            match st with
            | Open => monitor_loop p token_address target_price stop_loss_price rest
            | _ => ret st
            end
      end
  end.

Definition monitor_position_with (p : position) (feed : list http_response)
  : M position_state :=
  call "monitor_position" ;;;
  let target_price := (buy_price p * PROFIT_TARGET_MULTIPLIER)%float in
  let stop_loss_price := (buy_price p * STOP_LOSS_RATIO)%float in
  token_address <- lift (address_of (token p)) ;;
  monitor_loop p token_address target_price stop_loss_price feed.

End Monitor.

(* ===================================================================== *)
(** ** solana_bot_v6_gpt.py *)
(* ===================================================================== *)

Module V6.

Definition RISK_AMOUNT : float := 10%float.
Definition PROFIT_TARGET_MULTIPLIER : float := 1.4%float.
Definition STOP_LOSS_RATIO : float := 0.8%float.
Definition MIN_SCORE_THRESHOLD : float := 2.0%float.

(** The strings [categorize_token] returns. *)
Inductive category : Type :=
| VeryDegen | Degen | MidCaps | OldMidCaps | LargerMidCaps.

Definition category_name (c : category) : string :=
  match c with
  | VeryDegen => "Very Degen"
  | Degen => "Degen"
  | MidCaps => "Mid-Caps"
  | OldMidCaps => "Old Mid-Caps"
  | LargerMidCaps => "Larger Mid Caps"
  end.

Record bot_state : Type := mkState {
  positions : list position;
  discovered : pyset
}.

Section Bot.

Variable float_of_str : string -> option float.
Variable REAL_TRANSACTIONS : bool.
Variable rpc_response : result json.
(** What [json.load] gives for [config.json], or the failure to read it. *)
Variable config_file : result json.
(** What the global name [advanced_rug_pull_check] is bound to.  The script
    calls the function and never defines it: as shipped the name is unbound
    ([None]).  v5 defines it. *)
Variable advanced_rug_pull_check : option (json -> M bool).

Definition send_sol_transfer : M json :=
  call "send_sol_transfer" ;;;
  print "[INFO] Sending SOL transfer transaction..." ;;;
  response <- lift rpc_response ;;
  print "[INFO] Transaction response:" ;;;
  ret response.

Definition verify_volume (token : json) : M bool :=
  call "verify_volume" ;;;
  volume <- get_float float_of_str token "volumeUsd24Hr" ;;
  ret (0 <? volume)%float.

Definition check_rug_status (token_address : json) : M bool :=
  call "check_rug_status" ;;; ret true.

Definition check_supply (token : json) : M bool :=
  call "check_supply" ;;;
  b <- lift (py_get token "supplyBundled" (JBool false)) ;;
  ret (negb (py_truthy b)).

Definition load_config : M json :=
  call "load_config" ;;; lift config_file.

Definition in_blacklist (list_key addr_key : string) (token : json) : M bool :=
  cfg <- load_config ;;
  blacklist <- lift (py_get cfg list_key (JList [])) ;;
  a <- lift (py_get token addr_key (JStr "")) ;;
  address <- lift (py_lower a) ;;
  items <- lift (py_iter blacklist) ;;
  lowered <- mapM (fun x => lift (py_lower x)) items ;;
  ret (str_in address lowered).

Definition coin_in_blacklist (token : json) : M bool :=
  call "coin_in_blacklist" ;;; in_blacklist "coin_blacklist" "tokenAddress" token.

Definition dev_in_blacklist (token : json) : M bool :=
  call "dev_in_blacklist" ;;; in_blacklist "dev_blacklist" "devAddress" token.

(** The five tier tests, in the order of the [if] statements. *)
Definition tier_of (liquidity fdv pair_age txns1h txns24h volume24h volume6h : float)
  : option category :=
  if ((10000 <=? liquidity) && (100000 <=? fdv) &&
      ((0 <=? pair_age) && (pair_age <=? 48)) && (30 <=? txns1h))%float
  then Some VeryDegen
  else if ((15000 <=? liquidity) && (100000 <=? fdv) &&
           ((1 <=? pair_age) && (pair_age <=? 72)) && (100 <=? txns1h))%float
  then Some Degen
  else if ((100000 <=? liquidity) && (1000000 <=? fdv) &&
           (1200000 <=? volume24h) && (30 <=? txns24h))%float
  then Some MidCaps
  else if ((100000 <=? liquidity) && (200000 <=? fdv) && (fdv <=? 100000000) &&
           ((720 <=? pair_age) && (pair_age <=? 2800)) &&
           (200000 <=? volume24h) && (2000 <=? txns24h))%float
  then Some OldMidCaps
  else if ((200000 <=? liquidity) && (1000000 <=? fdv) && (150000 <=? volume6h))%float
  then Some LargerMidCaps
  else None.

(** The seven numbers read at the top of the [try] block. *)
Record tier_fields : Type := mkFields {
  liquidity : float;
  fdv : float;
  pair_age : float;
  txns1h : float;
  txns24h : float;
  volume24h : float;
  volume6h : float
}.

Definition read_fields (token : json) : M tier_fields :=
  liquidity <- get_float float_of_str token "liquidityUsd" ;;
  d <- lift (py_get token "marketCapUsd" (JInt 0)) ;;
  fdv <- lift (py_get token "fdvUsd" d) ;;
  fdv <- (if py_truthy fdv then lift (py_float float_of_str fdv) else ret 0%float) ;;
  pair_age <- get_float float_of_str token "pairAgeHours" ;;
  txns1h <- get_float float_of_str token "txns1h" ;;
  txns24h <- get_float float_of_str token "txns24h" ;;
  volume24h <- get_float float_of_str token "volumeUsd24Hr" ;;
  volume6h <- get_float float_of_str token "volumeUsd6h" ;;
  ret (mkFields liquidity fdv pair_age txns1h txns24h volume24h volume6h).

(** The two [if ...: return None] under "Check blacklists and supply":
    [true] when one of them returns. *)
Definition reject_checks (token : json) : M bool :=
  listed <- orM (coin_in_blacklist token)
                (orM (dev_in_blacklist token) (notM (check_supply token))) ;;
  if listed then ret true
  else orM (notM (verify_volume token))
           (notM (a <- lift (py_get token "tokenAddress" (JStr "")) ;;
                  check_rug_status a)).

(** The body of the [try] block. *)
Definition categorize_body (token : json) : M (option category) :=
  f <- read_fields token ;;
  rejected <- reject_checks token ;;
  if rejected then ret None
  else ret (tier_of (liquidity f) (fdv f) (pair_age f) (txns1h f) (txns24h f)
                    (volume24h f) (volume6h f)).

Definition categorize_token (token : json) : M (option category) :=
  call "categorize_token" ;;;
  try_except (categorize_body token)
    (fun _ => print "[ERROR] Categorizing token" ;;; ret None).

Definition score_body (token : json) : M float :=
  d <- lift (py_get token "fdvUsd" (JInt 0)) ;;
  mc <- lift (py_get token "marketCapUsd" d) ;;
  market_cap <- lift (py_float float_of_str (py_or mc (JInt 0))) ;;
  liquidity <- get_float float_of_str token "liquidityUsd" ;;
  volume24h <- get_float float_of_str token "volumeUsd24Hr" ;;
  ret ((market_cap / 100000) + (liquidity / 50000) + (volume24h / 1000000))%float.

Definition score_token (token : json) : M float :=
  call "score_token" ;;;
  try_except (score_body token)
    (fun _ => print "[ERROR] Scoring token" ;;; ret 0%float).

Fixpoint filter_loop (min_score : float) (tokens : list json) : M (list json) :=
  match tokens with
  | [] => ret []
  | token :: rest =>
      s <- score_token token ;;
      if (min_score <=? s)%float
      then token' <- lift (py_setitem token "score" (JFloat s)) ;;
           filtered <- filter_loop min_score rest ;;
           ret (token' :: filtered)
      else filter_loop min_score rest
  end.

Definition filter_tokens (tokens : json) (min_score : float) : M (list json) :=
  call "filter_tokens" ;;;
  l <- lift (py_iter tokens) ;;
  filter_loop min_score l.

Definition execute_trade (token_address : json) (action : string) : M json :=
  call ("execute_trade:" ++ action) ;;;
  if REAL_TRANSACTIONS
  then if str_in action ["buy"; "sell"]
       then print "[REAL TRADE] order" ;;; send_sol_transfer
       else print "[REAL TRADE] Unknown action" ;;; ret JNull
  else print "[SIMULATION] Executing order" ;;; ret (JFloat 0.1).

(** A call through a global name: [NameError] when the name is unbound. *)
Definition call_global {A B} (f : option (A -> M B)) (x : A) : M B :=
  match f with
  | Some g => g x
  | None => raise NameError
  end.

Definition is_none {A} (o : option A) : bool :=
  match o with None => true | Some _ => false end.

Definition buy_token (token : json) : M (option position) :=
  call "buy_token" ;;;
  category <- categorize_token token ;;
  token_score <- score_token token ;;
  token <- lift (py_setitem token "score" (JFloat token_score)) ;;
  skip <- orM (ret (is_none category))
              (orM (ret (token_score <? MIN_SCORE_THRESHOLD)%float)
                   (call_global advanced_rug_pull_check token)) ;;
  if skip then print "[FILTER] skipped" ;;; ret None
  else
    token_address <- lift (py_get token "tokenAddress" JNull) ;;
    if negb (py_truthy token_address)
    then print "[BUY] Token address not found; skipping." ;;; ret None
    else
      trade_result <- execute_trade token_address "buy" ;;
      if negb (py_truthy trade_result) then ret None
      else
        let buy_price := 0.1%float in
        let quantity := (RISK_AMOUNT / buy_price)%float in
        print "[BUY]" ;;;
        ret (Some (mkPosition token buy_price quantity)).

Definition sell_token (p : position) : M json :=
  call "sell_token" ;;;
  token_address <- lift (py_get (token p) "tokenAddress" JNull) ;;
  trade_result <- execute_trade token_address "sell" ;;
  print "[SELL]" ;;;
  ret trade_result.

Definition fetch_tokens (r : http_response) : M json :=
  call "fetch_tokens" ;;;
  try_except
    (data <- http_get_json r ;;
     match data with
     | JList _ => ret data
     | JDict _ => lift (py_get data "data" (JList []))
     | _ => ret (JList [])
     end)
    (fun _ => print "[ERROR] Fetching tokens" ;;; ret (JList [])).

Definition monitor_position : position -> list http_response -> M position_state :=
  monitor_position_with float_of_str PROFIT_TARGET_MULTIPLIER STOP_LOSS_RATIO
    (fun t => py_get t "tokenAddress" JNull) fetch_tokens sell_token.

(** [sym = token.get("symbol") or token.get("tokenAddress") or "Unknown"]. *)
Definition sym_of (token : json) : result json :=
  match py_get token "symbol" JNull, py_get token "tokenAddress" JNull with
  | Ok s, Ok a => Ok (py_or (py_or s a) (JStr "Unknown"))
  | Raise e, _ => Raise e
  | _, Raise e => Raise e
  end.

(** The [for token in good_tokens] loop of [main]. *)
Fixpoint discovery_loop (good_tokens : list json) (st : bot_state) : M bot_state :=
  match good_tokens with
  | [] => ret st
  | token :: rest =>
      sym <- lift (sym_of token) ;;
      category <- categorize_token token ;;
      if is_none category then discovery_loop rest st
      else
        seen <- lift (set_mem sym (discovered st)) ;;
        if seen then discovery_loop rest st
        else
          discovered' <- lift (set_add sym (discovered st)) ;;
          print "[DISCOVERY] Found token" ;;;
          p <- buy_token token ;;
          match p with
          | Some pos =>
              call "monitor_thread.start" ;;;
              discovery_loop rest (mkState (positions st ++ [pos])%list discovered')
          | None => discovery_loop rest (mkState (positions st) discovered')
          end
  end.

(** One iteration of the [while True] of [main]. *)
Definition main_tick (r : http_response) (st : bot_state) : M bot_state :=
  tokens <- fetch_tokens r ;;
  if py_truthy tokens
  then good_tokens <- filter_tokens tokens MIN_SCORE_THRESHOLD ;;
       discovery_loop good_tokens st
  else print "[INFO] No tokens fetched at this time." ;;; ret st.

Fixpoint main_loop (feed : list http_response) (st : bot_state) : M bot_state :=
  match feed with
  | [] => ret st
  | r :: rest => st' <- main_tick r st ;; main_loop rest st'
  end.

Definition main (feed : list http_response) : M bot_state :=
  main_loop feed (mkState [] []).

End Bot.
End V6.

(* ===================================================================== *)
(** ** solana_bot_v1.py *)
(* ===================================================================== *)

Module V1.

Definition RISK_AMOUNT : float := 1.0%float.
Definition PROFIT_TARGET_MULTIPLIER : float := 2.0%float.
Definition STOP_LOSS_RATIO : float := 0.8%float.

Record bot_state : Type := mkState {
  positions : list position;
  discovered : pyset
}.

Section Bot.

Variable float_of_str : string -> option float.

Definition execute_dex_trade (token_address : json) (action : string) : M float :=
  call ("execute_dex_trade:" ++ action) ;;;
  print "[TRADE] Executing order" ;;;
  ret 0.1%float.

Definition fetch_tokens (r : http_response) : M json :=
  call "fetch_tokens" ;;;
  try_except
    (data <- match r with
             | ConnectionFails => raise RequestException
             | NotJson => raise JSONDecodeError
             | Body data => ret data
             end ;;
     lift (py_get data "pairs" (JList [])))
    (fun _ => print "[ERROR] Fetching tokens" ;;; ret (JList [])).

(** [t.get("baseToken", {}).get(k)]. *)
Definition base_token_get (k : string) (default : json) (t : json) : result json :=
  match py_get t "baseToken" (JDict []) with
  | Ok b => py_get b k default
  | Raise e => Raise e
  end.

Definition advanced_rug_pull_check (token : json) : M bool :=
  call "advanced_rug_pull_check" ;;;
  try_except
    (volume <- get_float float_of_str token "volumeUsd" ;;
     if (volume <? 1000)%float
     then lift (base_token_get "symbol" (JStr "Unknown") token) ;;;
          print "[RUG CHECK] flagged as high risk (low volume)" ;;; ret true
     else
       price <- get_float float_of_str token "priceUsd" ;;
       if (price <? 0.0001)%float
       then lift (base_token_get "symbol" (JStr "Unknown") token) ;;;
            print "[RUG CHECK] flagged as high risk (extremely low price)" ;;;
            ret true
       else ret false)
    (fun _ => print "[ERROR] In risk analysis" ;;; ret true).

Definition buy_token (token : json) : M (option position) :=
  call "buy_token" ;;;
  risky <- advanced_rug_pull_check token ;;
  if risky then ret None
  else
    token_address <- lift (base_token_get "address" JNull token) ;;
    if negb (py_truthy token_address)
    then print "[BUY] Token address not found; skipping." ;;; ret None
    else
      buy_price <- execute_dex_trade token_address "buy" ;;
      if (buy_price =? 0)%float then ret None
      else
        let quantity := (RISK_AMOUNT / buy_price)%float in
        lift (base_token_get "symbol" (JStr "Unknown") token) ;;;
        print "[BUY] Bought" ;;;
        ret (Some (mkPosition token buy_price quantity)).

Definition sell_token (p : position) : M json :=
  call "sell_token" ;;;
  token_address <- lift (base_token_get "address" JNull (token p)) ;;
  lift (base_token_get "symbol" (JStr "Unknown") (token p)) ;;;
  sell_price <- execute_dex_trade token_address "sell" ;;
  print "[SELL] Sold" ;;;
  ret (JFloat sell_price).

Definition monitor_position : position -> list http_response -> M position_state :=
  monitor_position_with float_of_str PROFIT_TARGET_MULTIPLIER STOP_LOSS_RATIO
    (base_token_get "address" JNull) fetch_tokens sell_token.

(** The [for token in tokens] loop of [main]. *)
Fixpoint discovery_loop (tokens : list json) (st : bot_state) : M bot_state :=
  match tokens with
  | [] => ret st
  | token :: rest =>
      symbol <- lift (base_token_get "symbol" JNull token) ;;
      seen <- (if negb (py_truthy symbol) then ret true
               else lift (set_mem symbol (discovered st))) ;;
      if seen then discovery_loop rest st
      else
        discovered' <- lift (set_add symbol (discovered st)) ;;
        print "[DISCOVERY] Found new token" ;;;
        p <- buy_token token ;;
        match p with
        | Some pos =>
            call "monitor_thread.start" ;;;
            discovery_loop rest (mkState (positions st ++ [pos])%list discovered')
        | None => discovery_loop rest (mkState (positions st) discovered')
        end
  end.

Definition main_tick (r : http_response) (st : bot_state) : M bot_state :=
  tokens <- fetch_tokens r ;;
  if py_truthy tokens
  then l <- lift (py_iter tokens) ;; discovery_loop l st
  else print "[INFO] No tokens fetched at this time." ;;; ret st.

Fixpoint main_loop (feed : list http_response) (st : bot_state) : M bot_state :=
  match feed with
  | [] => ret st
  | r :: rest => st' <- main_tick r st ;; main_loop rest st'
  end.

Definition main (feed : list http_response) : M bot_state :=
  main_loop feed (mkState [] []).

End Bot.
End V1.

(* ===================================================================== *)
(** ** v6 with the risk check of v5 *)
(* ===================================================================== *)

Module Engine.

Section Rules.

Variable float_of_str : string -> option float.
Variable REAL_TRANSACTIONS : bool.
Variable rpc_response : result json.
Variable config_file : result json.

(** [buy_token] of v6 with the name [advanced_rug_pull_check] bound to the
    definition of v5. *)
Definition buy_token : json -> M (option position) :=
  V6.buy_token float_of_str REAL_TRANSACTIONS rpc_response config_file
    (Some (V5.advanced_rug_pull_check float_of_str)).

Definition main : list http_response -> M V6.bot_state :=
  V6.main float_of_str REAL_TRANSACTIONS rpc_response config_file
    (Some (V5.advanced_rug_pull_check float_of_str)).

End Rules.
End Engine.

(* ===================================================================== *)
(** ** Sample inputs *)
(* ===================================================================== *)

Fixpoint digits_value (s : string) (acc : Z) : option Z :=
  match s with
  | EmptyString => Some acc
  | String c r =>
      let n := nat_of_ascii c in
      if andb (Nat.leb 48 n) (Nat.leb n 57)
      then digits_value r (10 * acc + Z.of_nat (n - 48))
      else None
  end.

(** A runtime for the examples: it reads a string of ASCII digits as the
    integer it spells and refuses every other string. *)
Definition digits_float_of_str (s : string) : option float :=
  match s with
  | EmptyString => None
  | _ => match digits_value s 0 with
         | Some z => match float_of_Z z with Ok f => Some f | Raise _ => None end
         | None => None
         end
  end.

(** The record of the end-to-end scenario. *)
Definition scenario_token : json :=
  JDict [("tokenAddress", JStr "A");
         ("marketCapUsd", JInt 500000);
         ("liquidityUsd", JInt 60000);
         ("volumeUsd24Hr", JInt 1500000);
         ("priceUsd", JFloat 0.1);
         ("pairAgeHours", JInt 10);
         ("txns1h", JInt 40)].

Definition empty_config : result json := Ok (JDict []).

(* ===================================================================== *)
(** ** The specification's reading of the operations *)
(* ===================================================================== *)

(** The tokens a feed answer stands for: the body when it is a list, its
    [data] field when it is an object (the empty list without the field),
    and the empty list in every other case. *)
Definition feed_tokens (r : http_response) : json :=
  match r with
  | Body (JList l) => JList l
  | Body (JDict d) => match assoc "data" d with Some v => v | None => JList [] end
  | _ => JList []
  end.

(** The tokens a v1 feed answer stands for: the [pairs] field of an object
    (the empty list without the field), and the empty list in every other
    case, a bare list included. *)
Definition pairs_tokens (r : http_response) : json :=
  match r with
  | Body (JDict d) => match assoc "pairs" d with Some v => v | None => JList [] end
  | _ => JList []
  end.

(** A v1 position bought at the simulated price, and a feed answer that
    quotes its token at [price]. *)
Definition v1_token (price : float) : json :=
  JDict [("baseToken", JDict [("address", JStr "A"); ("symbol", JStr "AAA")]);
         ("priceUsd", JFloat price);
         ("volumeUsd", JInt 5000)].

Definition v1_position : position :=
  mkPosition (v1_token 0.1) 0.1 (V1.RISK_AMOUNT / 0.1).

Definition v1_quote (price : float) : http_response :=
  Body (JDict [("pairs", JList [v1_token price])]).

(** Two floats that stand for the same number: identical, or equal under
    [==] (the two zeros). *)
Definition num_eq (a b : float) : Prop := a = b \/ (a =? b)%float = true.

(** One of the two zeros. *)
Definition zeroish (a : float) : Prop := exists s, Prim2SF a = S754_zero s.

(** The value both scripts convert: [marketCapUsd], else [fdvUsd], else 0. *)
Definition cap_value (d : list (string * json)) : json :=
  match assoc "marketCapUsd" d with
  | Some v => v
  | None => match assoc "fdvUsd" d with Some v => v | None => JInt 0 end
  end.

(** What a branch of the monitor that sells returns: its state, unless the
    sale raised. *)
Definition closed_by (st : position_state) (r : result json) : result position_state :=
  match r with
  | Ok _ => Ok st
  | Raise e => Raise e
  end.

Section Reading.

Variable float_of_str : string -> option float.

(** The number a field holds, if it holds one. *)
Definition number_of (v : json) : option float :=
  match py_float float_of_str v with
  | Ok f => Some f
  | Raise _ => None
  end.

(** A numeric field of a record: 0 when the field is missing. *)
Definition field (d : list (string * json)) (k : string) : option float :=
  match assoc k d with
  | None => Some 0%float
  | Some v => number_of v
  end.

(** [marketCapUsd], with fallback to [fdvUsd] if absent. *)
Definition market_cap (d : list (string * json)) : option float :=
  match assoc "marketCapUsd" d with
  | Some v => number_of v
  | None => field d "fdvUsd"
  end.

(** The score of the specification. *)
Definition score_formula (mc liq vol : float) : float :=
  (mc / 100000 + liq / 50000 + vol / 1000000)%float.

End Reading.

(* ===================================================================== *)
(** ** The reject rules and the tiers, as the specification lists them *)
(* ===================================================================== *)

Definition MIN_MARKET_CAP : float := 100000%float.
Definition MIN_VOLUME : float := 1000%float.
Definition MIN_PRICE : float := 0.0001%float.

(** What the seven checks look at. *)
Record facts : Type := mkFacts {
  coin_listed : bool;
  dev_listed : bool;
  supply_bundled : bool;
  volume : float;
  rug_failed : bool;
  cap : float;
  price : float
}.

Inductive check : Type :=
| Blacklist | SupplyBundled | NoVolume | RugStatus
| MarketCapFloor | LowVolume | DustPrice.

(** When a check matches, as the code tests it.  The third check is the
    [not verify_volume(token)] of v6: the volume is not above 0. *)
Definition matches (x : facts) (c : check) : bool :=
  match c with
  | Blacklist => coin_listed x || dev_listed x
  | SupplyBundled => supply_bundled x
  | NoVolume => negb (0 <? volume x)%float
  | RugStatus => rug_failed x
  | MarketCapFloor => (cap x <? MIN_MARKET_CAP)%float
  | LowVolume => (volume x <? MIN_VOLUME)%float
  | DustPrice => (price x <? MIN_PRICE)%float
  end.

(** When a check matches, as the specification words it: the third check
    is [volumeUsd24h <= 0]. *)
Definition stated_matches (x : facts) (c : check) : bool :=
  match c with
  | NoVolume => (volume x <=? 0)%float
  | _ => matches x c
  end.

(** The checks of [categorize_token] (v6) and those of
    [advanced_rug_pull_check] (v5), in the order of their [if]s. *)
Definition categorize_checks : list check :=
  [Blacklist; SupplyBundled; NoVolume; RugStatus].
Definition risk_checks : list check :=
  [MarketCapFloor; LowVolume; DustPrice].

Definition checks_in_order : list check :=
  (categorize_checks ++ risk_checks)%list.

(** What applying one check shows in a run: the helper functions entered
    and, for the last three, the message printed on a match. *)
Definition check_events (x : facts) (c : check) : trace :=
  match c with
  | Blacklist =>
      if coin_listed x
      then [Call "coin_in_blacklist"; Call "load_config"]
      else [Call "coin_in_blacklist"; Call "load_config";
            Call "dev_in_blacklist"; Call "load_config"]
  | SupplyBundled => [Call "check_supply"]
  | NoVolume => [Call "verify_volume"]
  | RugStatus => [Call "check_rug_status"]
  | MarketCapFloor =>
      Call "advanced_rug_pull_check" ::
      (if matches x c then [Print "[FILTER] skipped: market cap < 100000"] else [])
  | LowVolume =>
      if matches x c then [Print "[RUG CHECK] flagged as high risk (low volume)"] else []
  | DustPrice =>
      if matches x c
      then [Print "[RUG CHECK] flagged as high risk (extremely low price)"] else []
  end.

(** Applying the checks of a list one after the other, up to and including
    the first that matches. *)
Fixpoint apply_checks (x : facts) (cs : list check) : trace :=
  match cs with
  | [] => []
  | c :: rest =>
      (check_events x c ++ (if matches x c then [] else apply_checks x rest))%list
  end.

(** *** The facts of a record, read from the record and the configuration *)

Fixpoint strings_of (l : list json) : option (list string) :=
  match l with
  | [] => Some []
  | JStr s :: r =>
      match strings_of r with
      | Some ss => Some (s :: ss)
      | None => None
      end
  | _ :: _ => None
  end.

(** The entries of a blacklist of [config.json]: the list of strings under
    the key, and no entry when the key is absent. *)
Definition blacklist_entries (c : list (string * json)) (k : string)
  : option (list string) :=
  match assoc k c with
  | None => Some []
  | Some (JList l) => strings_of l
  | Some _ => None
  end.

(** An address of a record: the string under the key, the empty string when
    the key is absent. *)
Definition address_text (d : list (string * json)) (k : string) : option string :=
  match assoc k d with
  | None => Some ""
  | Some (JStr a) => Some a
  | Some _ => None
  end.

(** An address is listed when it is an entry of the list, the case of the
    letters apart. *)
Definition listed (a : string) (bl : list string) : bool :=
  existsb (fun b => String.eqb (lower a) (lower b)) bl.

(** [supplyBundled] holds a true value. *)
Definition bundled (d : list (string * json)) : bool :=
  match assoc "supplyBundled" d with
  | Some v => py_truthy v
  | None => false
  end.

(** The market cap the floor is tested on: [marketCapUsd], else [fdvUsd],
    an empty or zero value counting as 0. *)
Definition floor_cap (fos : string -> option float) (d : list (string * json))
  : option float :=
  if py_truthy (cap_value d) then number_of fos (cap_value d) else Some 0%float.

(** The facts of a record under a configuration, when the blacklists are
    lists of ASCII strings, the addresses ASCII strings and the volume, the
    market cap and the price numbers.  The rug-status service of the scripts
    never reports a failure. *)
Definition facts_of (fos : string -> option float)
    (c d : list (string * json)) : option facts :=
  match blacklist_entries c "coin_blacklist", blacklist_entries c "dev_blacklist",
        address_text d "tokenAddress", address_text d "devAddress",
        field fos d "volumeUsd24Hr", floor_cap fos d, field fos d "priceUsd" with
  | Some bc, Some bd, Some ac, Some ad, Some vol, Some cp, Some pr =>
      if forallb ascii_only (ac :: ad :: bc ++ bd)
      then Some (mkFacts (listed ac bc) (listed ad bd) (bundled d) vol false cp pr)
      else None
  | _, _, _, _, _, _, _ => None
  end.

(** The tier table. *)
Definition tier_matches (f : V6.tier_fields) (c : V6.category) : bool :=
  let liq := V6.liquidity f in
  let cap := V6.fdv f in
  let age := V6.pair_age f in
  (match c with
   | V6.VeryDegen =>
       (10000 <=? liq) && (100000 <=? cap) && (0 <=? age) && (age <=? 48)
       && (30 <=? V6.txns1h f)
   | V6.Degen =>
       (15000 <=? liq) && (100000 <=? cap) && (1 <=? age) && (age <=? 72)
       && (100 <=? V6.txns1h f)
   | V6.MidCaps =>
       (100000 <=? liq) && (1000000 <=? cap) && (1200000 <=? V6.volume24h f)
       && (30 <=? V6.txns24h f)
   | V6.OldMidCaps =>
       (100000 <=? liq) && (200000 <=? cap) && (cap <=? 100000000)
       && (720 <=? age) && (age <=? 2800)
       && (200000 <=? V6.volume24h f) && (2000 <=? V6.txns24h f)
   | V6.LargerMidCaps =>
       (200000 <=? liq) && (1000000 <=? cap) && (150000 <=? V6.volume6h f)
   end)%float.

Definition tiers_in_order : list V6.category :=
  [V6.VeryDegen; V6.Degen; V6.MidCaps; V6.OldMidCaps; V6.LargerMidCaps].

Definition first_tier (f : V6.tier_fields) : option V6.category :=
  find (tier_matches f) tiers_in_order.

(* ===================================================================== *)
(** ** Malformed records *)
(* ===================================================================== *)





(* ===================================================================== *)
(** ** Positions *)
(* ===================================================================== *)

(** The record of the scenario, quoted at [price]. *)
Definition priced_token (price : float) : json :=
  JDict [("tokenAddress", JStr "A");
         ("marketCapUsd", JInt 500000);
         ("liquidityUsd", JInt 60000);
         ("volumeUsd24Hr", JInt 1500000);
         ("priceUsd", JFloat price);
         ("pairAgeHours", JInt 10);
         ("txns1h", JInt 40)].

(** A run of [buy_token], of v5 or of v6, that opens the position [p]. *)
Definition opens (fos : string -> option float) (real : bool) (rpc cfg : result json)
    (arpc : option (json -> M bool)) (t : json) (p : position) : Prop :=
  outcome (V5.buy_token fos real rpc t) = Ok (Some p) \/
  outcome (V6.buy_token fos real rpc cfg arpc t) = Ok (Some p).

(** The position the scripts open on [priced_token price]: the record with
    its score, the constant entry price, the quantity it buys. *)
Definition bought (price : float) : position :=
  mkPosition
    (JDict [("tokenAddress", JStr "A");
            ("marketCapUsd", JInt 500000);
            ("liquidityUsd", JInt 60000);
            ("volumeUsd24Hr", JInt 1500000);
            ("priceUsd", JFloat price);
            ("pairAgeHours", JInt 10);
            ("txns1h", JInt 40);
            ("score",
             JFloat (500000 / 100000 + 60000 / 50000 + 1500000 / 1000000)%float)])
    0.1%float (10 / 0.1)%float.

(* ===================================================================== *)
(** ** Feeds for the discovery loop *)
(* ===================================================================== *)

(** A v1 record of the token at address "A" under the symbol [symbol]. *)
Definition v1_record (symbol : string) : json :=
  JDict [("baseToken", JDict [("address", JStr "A"); ("symbol", JStr symbol)]);
         ("priceUsd", JFloat 0.1);
         ("volumeUsd", JInt 5000)].

(** One answer of the v1 feed that lists the address "A" twice, under two
    symbols. *)
Definition same_address_feed : http_response :=
  Body (JDict [("pairs", JList [v1_record "AAA"; v1_record "BBB"])]).

(** One answer of the v6 feed: the record of the scenario. *)
Definition scenario_feed : http_response := Body (JList [scenario_token]).

(* ===================================================================== *)
(** ** solana_bot_v5_gpt.py: the monitor and the main loop *)
(* ===================================================================== *)

Module V5Loop.

Record bot_state : Type := mkState {
  positions : list position;
  discovered : pyset
}.

Section Bot.

Variable float_of_str : string -> option float.
Variable REAL_TRANSACTIONS : bool.
Variable rpc_response : result json.

Definition monitor_position : position -> list http_response -> M position_state :=
  monitor_position_with float_of_str V5.PROFIT_TARGET_MULTIPLIER V5.STOP_LOSS_RATIO
    (fun t => py_get t "tokenAddress" JNull) V5.fetch_tokens
    (V5.sell_token REAL_TRANSACTIONS rpc_response).

(** The [for token in good_tokens] loop of [main]; the key [sym] is the
    expression of v6. *)
Fixpoint discovery_loop (good_tokens : list json) (st : bot_state) : M bot_state :=
  match good_tokens with
  | [] => ret st
  | token :: rest =>
      sym <- lift (V6.sym_of token) ;;
      seen <- lift (set_mem sym (discovered st)) ;;
      if seen then discovery_loop rest st
      else
        discovered' <- lift (set_add sym (discovered st)) ;;
        print "[DISCOVERY] Found token" ;;;
        p <- V5.buy_token float_of_str REAL_TRANSACTIONS rpc_response token ;;
        match p with
        | Some pos =>
            call "monitor_thread.start" ;;;
            discovery_loop rest (mkState (positions st ++ [pos])%list discovered')
        | None => discovery_loop rest (mkState (positions st) discovered')
        end
  end.

(** One iteration of the [while True] of [main]. *)
Definition main_tick (r : http_response) (st : bot_state) : M bot_state :=
  tokens <- V5.fetch_tokens r ;;
  if py_truthy tokens
  then good_tokens <- V5.filter_tokens float_of_str tokens V5.MIN_SCORE_THRESHOLD ;;
       discovery_loop good_tokens st
  else print "[INFO] No tokens fetched at this time." ;;; ret st.

Fixpoint main_loop (feed : list http_response) (st : bot_state) : M bot_state :=
  match feed with
  | [] => ret st
  | r :: rest => st' <- main_tick r st ;; main_loop rest st'
  end.

Definition main (feed : list http_response) : M bot_state :=
  main_loop feed (mkState [] []).

End Bot.
End V5Loop.

(* ===================================================================== *)
(** ** Reading runs *)
(* ===================================================================== *)

(** The calls of [sell_token] in a trace. *)
Definition is_sell (ev : event) : bool :=
  match ev with
  | Call f => String.eqb f "sell_token"
  | Print _ => false
  end.

Definition sells (tr : trace) : nat := List.length (filter is_sell tr).

(** No element of a set equals one entered before it. *)
Fixpoint distinct (s : pyset) : Prop :=
  match s with
  | [] => True
  | v :: r => Forall (fun w => py_eq w v = false) r /\ distinct r
  end.

(** A token that [filter_tokens] keeps: a token of the list whose score is at
    least [m], with the score written into its field [score]. *)
Definition kept_from (score_token : json -> M float) (m : float) (l : list json)
    (t' : json) : Prop :=
  exists t s,
    In t l /\ outcome (score_token t) = Ok s /\ (m <=? s)%float = true /\
    py_setitem t "score" (JFloat s) = Ok t'.

(** A record whose score is below the threshold of the scripts. *)
Definition small_token : json :=
  JDict [("tokenAddress", JStr "B"); ("marketCapUsd", JInt 1000)].

(** Two records with the same values under the keys [ks]. *)
Definition agree (ks : list string) (d d' : list (string * json)) : Prop :=
  forall k, In k ks -> assoc k d = assoc k d'.

(** The keys each function looks up in a record. *)
Definition categorize_reads : list string :=
  ["liquidityUsd"; "marketCapUsd"; "fdvUsd"; "pairAgeHours"; "txns1h"; "txns24h";
   "volumeUsd24Hr"; "volumeUsd6h"; "tokenAddress"; "devAddress"; "supplyBundled"].
Definition score_reads : list string :=
  ["fdvUsd"; "marketCapUsd"; "liquidityUsd"; "volumeUsd24Hr"].
Definition risk_reads : list string :=
  ["fdvUsd"; "marketCapUsd"; "volumeUsd24Hr"; "priceUsd"].

(** What a run says of the sale: none while the position is open, one when
    it is closed, at most one in any case. *)
Definition one_sale (m : M position_state) : Prop :=
  (sells (events m) <= 1)%nat /\
  (outcome m = Ok Open -> sells (events m) = 0%nat) /\
  (outcome m = Ok Closed_Profit \/ outcome m = Ok Closed_StopLoss ->
   sells (events m) = 1%nat).

(** A feed answer without news of the token at [addr]: fetching returns
    tokens among which the monitor finds none for the address, or an empty
    one. *)
Definition absent (fetch : http_response -> M json) (key : json -> result json)
    (addr : json) (r : http_response) : Prop :=
  exists tokens l ct,
    outcome (fetch r) = Ok tokens /\ py_iter tokens = Ok l /\
    find_token key addr l = Ok ct /\
    match ct with
    | None => True
    | Some t => py_truthy t = false
    end.

(** The positions [ps'] and the keys [ds'] continue the positions [ps] and
    the keys [ds]: nothing is removed, and what is appended holds no more
    positions than keys. *)
Definition extends (ps : list position) (ds : pyset)
    (ps' : list position) (ds' : pyset) : Prop :=
  exists ps1 ds1,
    ps' = (ps ++ ps1)%list /\ ds' = (ds ++ ds1)%list /\
    (List.length ps1 <= List.length ds1)%nat.
(* ===================================================================== *)
(** ** Comparisons of binary64 numbers *)
(* ===================================================================== *)

Lemma SFcompare_antisym (x y : spec_float) :
  SFcompare y x = option_map CompOpp (SFcompare x y).
Proof.
  destruct x as [sx|sx| |sx mx ex], y as [sy|sy| |sy my ey]; simpl;
    try reflexivity;
    try (destruct sx; reflexivity);
    try (destruct sy; reflexivity);
    try (destruct sx, sy; reflexivity).
  destruct sx, sy; simpl; try reflexivity.
  - rewrite (Z.compare_antisym ex ey).
    destruct (ex ?= ey)%Z; simpl; try reflexivity.
    change (Pos.compare_cont Eq my mx) with (my ?= mx)%positive.
    change (Pos.compare_cont Eq mx my) with (mx ?= my)%positive.
    rewrite (Pos.compare_antisym mx my). reflexivity.
  - rewrite (Z.compare_antisym ex ey).
    destruct (ex ?= ey)%Z; simpl; try reflexivity.
    change (Pos.compare_cont Eq my mx) with (my ?= mx)%positive.
    change (Pos.compare_cont Eq mx my) with (mx ?= my)%positive.
    rewrite (Pos.compare_antisym mx my). reflexivity.
Qed.

(** [a >= b] true makes [a < b] false. *)
Lemma leb_true_ltb_false (a b : float) :
  (b <=? a)%float = true -> (a <? b)%float = false.
Proof.
  rewrite leb_spec, ltb_spec. unfold SFleb, SFltb.
  rewrite (SFcompare_antisym (Prim2SF b) (Prim2SF a)).
  destruct (SFcompare (Prim2SF b) (Prim2SF a)) as [[]|]; simpl; congruence.
Qed.

(** On numbers (not NaN), [not (a < b)] is [b <= a]. *)
Lemma ltb_negb_leb (a b : float) :
  is_nan a = false -> is_nan b = false ->
  (a <? b)%float = negb (b <=? a)%float.
Proof.
  unfold is_nan. rewrite !eqb_spec, leb_spec, ltb_spec.
  unfold SFeqb, SFleb, SFltb.
  rewrite (SFcompare_antisym (Prim2SF b) (Prim2SF a)).
  destruct (Prim2SF a) as [sa|sa| |sa ma ea], (Prim2SF b) as [sb|sb| |sb mb eb];
    simpl; try discriminate; intros _ _;
    try reflexivity;
    try (destruct sa; reflexivity);
    try (destruct sb; reflexivity);
    try (destruct sa, sb; reflexivity).
  destruct sa, sb; simpl; try reflexivity;
    destruct (eb ?= ea)%Z; simpl; try reflexivity;
    destruct (Pos.compare_cont Eq mb ma); reflexivity.
Qed.

(** *** The two zeros *)

Lemma eqb_zero_zeroish (f : float) : (f =? 0)%float = true -> zeroish f.
Proof.
  rewrite eqb_spec. unfold SFeqb.
  change (Prim2SF 0) with (S754_zero false).
  destruct (Prim2SF f) as [s|s| |s m e] eqn:E; simpl.
  - intros _. now exists s.
  - destruct s; discriminate.
  - discriminate.
  - destruct s; discriminate.
Qed.

Lemma zeroish_eqb (a b : float) : zeroish a -> zeroish b -> (a =? b)%float = true.
Proof.
  intros [s Ha] [s' Hb]. rewrite eqb_spec, Ha, Hb. reflexivity.
Qed.

Lemma zeroish_num_eq (a b : float) : zeroish a -> zeroish b -> num_eq a b.
Proof. intros Ha Hb. right. now apply zeroish_eqb. Qed.

(** Dividing a zero by a positive finite constant gives a zero. *)
Lemma zeroish_div (a c : float) (m : positive) (e : Z) :
  Prim2SF c = S754_finite false m e -> zeroish a -> zeroish (a / c)%float.
Proof.
  intros Hc [s Ha]. exists (xorb s false).
  rewrite div_spec, Ha, Hc. reflexivity.
Qed.

(** Adding the same number to two zeros gives the same float, or two zeros. *)
Lemma zeroish_add_l (a b x : float) :
  zeroish a -> zeroish b ->
  (a + x = b + x)%float \/ (zeroish (a + x)%float /\ zeroish (b + x)%float).
Proof.
  intros [s Ha] [s' Hb].
  destruct (Prim2SF x) as [sx|sx| |sx mx ex] eqn:Ex.
  - right. split.
    + exists (if Bool.eqb s sx then s else false).
      rewrite add_spec, Ha, Ex. destruct s, sx; reflexivity.
    + exists (if Bool.eqb s' sx then s' else false).
      rewrite add_spec, Hb, Ex. destruct s', sx; reflexivity.
  - left. apply Prim2SF_inj. rewrite !add_spec, Ha, Hb, Ex. reflexivity.
  - left. apply Prim2SF_inj. rewrite !add_spec, Ha, Hb, Ex. reflexivity.
  - left. apply Prim2SF_inj. rewrite !add_spec, Ha, Hb, Ex. reflexivity.
Qed.

Lemma num_eq_refl (a : float) : num_eq a a.
Proof. now left. Qed.

(** The score does not tell a market cap of [-0.0] from one of [0.0]. *)
Lemma score_formula_zero (f liq vol : float) :
  (f =? 0)%float = true ->
  num_eq (score_formula 0 liq vol) (score_formula f liq vol).
Proof.
  intros Hf. unfold score_formula.
  assert (Hc : Prim2SF 100000 = S754_finite false 6871947673600000 (-36)).
  { vm_compute. reflexivity. }
  assert (H0 : zeroish (0 / 100000)%float).
  { apply (zeroish_div _ _ _ _ Hc). now exists false. }
  assert (H1 : zeroish (f / 100000)%float).
  { apply (zeroish_div _ _ _ _ Hc). now apply eqb_zero_zeroish. }
  destruct (zeroish_add_l _ _ (liq / 50000)%float H0 H1) as [E|[Z0 Z1]].
  - left. now rewrite E.
  - destruct (zeroish_add_l _ _ (vol / 1000000)%float Z0 Z1) as [E|[Z2 Z3]].
    + now left.
    + now apply zeroish_num_eq.
Qed.

(* ===================================================================== *)
(** ** Running computations *)
(* ===================================================================== *)

Lemma bind_ok {A B} (tr : trace) (a : A) (k : A -> M B) :
  bind (tr, Ok a) k = ((tr ++ events (k a))%list, outcome (k a)).
Proof. unfold bind, events, outcome. destruct (k a); reflexivity. Qed.

Lemma bind_raise {A B} (tr : trace) (e : exn) (k : A -> M B) :
  bind (tr, Raise e) k = (tr, Raise e).
Proof. reflexivity. Qed.

Lemma bind_ret {A B} (a : A) (k : A -> M B) : bind (ret a) k = k a.
Proof. unfold ret. rewrite bind_ok. destruct (k a); reflexivity. Qed.

Lemma bind_lift_ok {A B} (a : A) (k : A -> M B) : bind (lift (Ok a)) k = k a.
Proof. apply bind_ret. Qed.

Lemma bind_emit {B} (ev : event) (k : unit -> M B) :
  bind (emit ev) k = (ev :: events (k tt), outcome (k tt)).
Proof. unfold emit. rewrite bind_ok. reflexivity. Qed.

Lemma outcome_mk {A} (tr : trace) (r : result A) : outcome (tr, r) = r.
Proof. reflexivity. Qed.

Lemma events_mk {A} (tr : trace) (r : result A) : events (tr, r) = tr.
Proof. reflexivity. Qed.

Lemma M_eta {A} (m : M A) : m = (events m, outcome m).
Proof. destruct m; reflexivity. Qed.

Lemma outcome_bind {A B} (m : M A) (k : A -> M B) :
  outcome (bind m k) =
  match outcome m with
  | Ok a => outcome (k a)
  | Raise e => Raise e
  end.
Proof.
  destruct m as [tr [a|e]]; simpl; [|reflexivity].
  destruct (k a); reflexivity.
Qed.

Lemma events_bind {A B} (m : M A) (k : A -> M B) :
  events (bind m k) =
  match outcome m with
  | Ok a => (events m ++ events (k a))%list
  | Raise e => events m
  end.
Proof.
  destruct m as [tr [a|e]]; simpl; [|reflexivity].
  destruct (k a); reflexivity.
Qed.

(** A [try] whose handler returns a value returns a value. *)
Lemma try_except_returns {A} (body : M A) (h : exn -> M A) :
  (forall e, exists a, outcome (h e) = Ok a) ->
  exists a, outcome (try_except body h) = Ok a.
Proof.
  intros Hh. destruct body as [tr [a|e]]; simpl.
  - now exists a.
  - destruct (Hh e) as [a Ha]. destruct (h e) as [tr' r]; simpl in *.
    now exists a.
Qed.

Lemma outcome_try_except {A} (body : M A) (h : exn -> M A) :
  outcome (try_except body h) =
  match outcome body with
  | Ok a => Ok a
  | Raise e => outcome (h e)
  end.
Proof.
  destruct body as [tr [a|e]]; simpl; [reflexivity|].
  destruct (h e); reflexivity.
Qed.

Lemma get_float_events fos (t : json) (k : string) :
  events (get_float fos t k) = [].
Proof.
  unfold get_float, lift. destruct (py_get t k (JInt 0)) as [v|e]; simpl; [|reflexivity].
  destruct (py_float fos v); reflexivity.
Qed.

Lemma get_float_ok fos (t : json) (k : string) (x : float) :
  outcome (get_float fos t k) = Ok x -> get_float fos t k = ([], Ok x).
Proof.
  intros H. rewrite (M_eta (get_float fos t k)), get_float_events, H. reflexivity.
Qed.

Lemma events_bind_nil {A B} (m : M A) (k : A -> M B) :
  events m = [] -> (forall a, events (k a) = []) -> events (bind m k) = [].
Proof.
  intros Hm Hk. rewrite events_bind, Hm.
  destruct (outcome m); [apply Hk|reflexivity].
Qed.

Lemma events_lift {A} (r : result A) : events (lift r) = [].
Proof. reflexivity. Qed.


(** A computation that returns splits into what ran first and what ran next. *)
Lemma outcome_bind_ok {A B} (m : M A) (k : A -> M B) (b : B) :
  outcome (bind m k) = Ok b ->
  exists a, outcome m = Ok a /\ outcome (k a) = Ok b.
Proof.
  rewrite outcome_bind. destruct (outcome m) as [a|e]; [|discriminate].
  intros H. now exists a.
Qed.



Lemma outcome_call {A} (f : string) (m : M A) : outcome (call f ;;; m) = outcome m.
Proof. unfold call. now rewrite bind_emit. Qed.




Lemma bind_assoc {A B C} (m : M A) (f : A -> M B) (g : B -> M C) :
  bind (bind m f) g = bind m (fun x => bind (f x) g).
Proof.
  destruct m as [tr [a|e]]; simpl; [|reflexivity].
  destruct (f a) as [tr1 [b|e]]; simpl; [|reflexivity].
  destruct (g b) as [tr2 r]. now rewrite app_assoc.
Qed.

(* ===================================================================== *)
(** ** Fetching the feed *)
(* ===================================================================== *)

(** v1 reads another endpoint: it returns the [pairs] field of an object and
    the empty list for every other answer, a bare list included. *)
Lemma v1_fetch_tokens_pairs (r : http_response) :
  outcome (V1.fetch_tokens r) =
  Ok (match r with
      | Body (JDict d) => match assoc "pairs" d with Some v => v | None => JList [] end
      | _ => JList []
      end).
Proof. destruct r as [| |[]]; reflexivity. Qed.

(** The [fetch_tokens] of v1 does not return a bare list, and it does not
    read the field [data]: each of the two answers gives the empty list. *)
Lemma v1_fetch_ignores_list_and_data :
  outcome (V1.fetch_tokens (Body (JList [scenario_token]))) = Ok (JList []) /\
  outcome (V1.fetch_tokens (Body (JDict [("data", JList [scenario_token])])))
  = Ok (JList []) /\
  feed_tokens (Body (JList [scenario_token])) = JList [scenario_token] /\
  feed_tokens (Body (JDict [("data", JList [scenario_token])]))
  = JList [scenario_token].
Proof. repeat split. Qed.

(** C8, amended.  Whatever the feed answers, [fetch_tokens] returns a value
    and raises nothing.  In v6 (and v5, the same text) the value is the body
    itself when it is a list, its [data] field when it is an object (the empty
    list when the field is absent), and the empty list for any other body and
    for every failure of the request or of the parsing.  In v1 the value is
    the [pairs] field of a body that is an object (the empty list when the
    field is absent), and the empty list for any other body, a list included,
    and for every failure. *)
Theorem fetch_tokens_contract (r : http_response) :
  outcome (V6.fetch_tokens r) = Ok (feed_tokens r) /\
  outcome (V5.fetch_tokens r) = Ok (feed_tokens r) /\
  outcome (V1.fetch_tokens r) = Ok (pairs_tokens r).
Proof.
  split; [|split].
  - destruct r as [| |[]]; reflexivity.
  - destruct r as [| |[]]; reflexivity.
  - destruct r as [| |[]]; reflexivity.
Qed.
(* ===================================================================== *)
(** ** The position monitor *)
(* ===================================================================== *)

Section MonitorFacts.

Variable fos : string -> option float.
Variable sell : position -> M json.

(** The three ways through the loop body. *)
Lemma monitor_decide_cases (p : position) (target stop : float) (t : json) (cp : float) :
  outcome (get_float fos t "priceUsd") = Ok cp ->
  monitor_decide fos sell p target stop t =
  if (target <=? cp)%float
  then (Print "[MONITOR] current price" :: Print "[MONITOR] Profit target reached."
          :: events (sell p),
        closed_by Closed_Profit (outcome (sell p)))
  else if (cp <=? stop)%float
  then (Print "[MONITOR] current price" :: Print "[MONITOR] Stop loss triggered."
          :: events (sell p),
        closed_by Closed_StopLoss (outcome (sell p)))
  else ([Print "[MONITOR] current price"], Ok Open).
Proof.
  intros Hcp. unfold monitor_decide.
  rewrite (get_float_ok _ _ _ _ Hcp), bind_ok. simpl.
  destruct (target <=? cp)%float.
  - destruct (sell p) as [tr [r|e]]; simpl; try reflexivity.
    rewrite app_nil_r. reflexivity.
  - destruct (cp <=? stop)%float; [|reflexivity].
    destruct (sell p) as [tr [r|e]]; simpl; try reflexivity.
    rewrite app_nil_r. reflexivity.
Qed.

End MonitorFacts.

Lemma v1_sell_events (p : position) :
  ~ In (Print "[MONITOR] Stop loss triggered.") (events (V1.sell_token p)).
Proof.
  unfold V1.sell_token, V1.base_token_get.
  destruct (py_get (token p) "baseToken" (JDict [])) as [b|e]; simpl.
  - destruct (py_get b "address" JNull) as [a|e]; simpl.
    + destruct (py_get b "symbol" (JStr "Unknown")) as [s|e]; simpl;
        intuition discriminate.
    + intuition discriminate.
  - intuition discriminate.
Qed.

Lemma v6_sell_events real rpc (p : position) :
  ~ In (Print "[MONITOR] Stop loss triggered.") (events (V6.sell_token real rpc p)).
Proof.
  unfold V6.sell_token.
  destruct (py_get (token p) "tokenAddress" JNull) as [a|e]; simpl;
    [|intuition discriminate].
  destruct real; simpl; [|intuition discriminate].
  destruct rpc as [j|e]; simpl; intuition discriminate.
Qed.

(** C5.  On a record quoting the current price, one pass of the monitor
    closes the position through the profit branch exactly when the price is
    at least [buy_price * PROFIT_TARGET_MULTIPLIER], through the stop-loss
    branch exactly when it is not and the price is at most
    [buy_price * STOP_LOSS_RATIO], and leaves it open otherwise.  With v1's
    constants (2.0 and 0.8) and the buy price 0.1, a quote of 0.2 closes on
    profit, 0.08 on stop loss, and 0.15 leaves the position open. *)
Theorem monitor_thresholds fos (mult ratio : float) (sell : position -> M json)
    (p : position) (t : json) (cp : float) (r : json) :
  outcome (get_float fos t "priceUsd") = Ok cp ->
  outcome (sell p) = Ok r ->
  let target := (buy_price p * mult)%float in
  let stop := (buy_price p * ratio)%float in
  let st := outcome (monitor_decide fos sell p target stop t) in
  (st = Ok Closed_Profit <-> (target <=? cp)%float = true) /\
  (st = Ok Closed_StopLoss <->
     (target <=? cp)%float = false /\ (cp <=? stop)%float = true) /\
  (st = Ok Open <->
     (target <=? cp)%float = false /\ (cp <=? stop)%float = false) /\
  outcome (V1.monitor_position fos v1_position [v1_quote 0.2]) = Ok Closed_Profit /\
  outcome (V1.monitor_position fos v1_position [v1_quote 0.08]) = Ok Closed_StopLoss /\
  outcome (V1.monitor_position fos v1_position [v1_quote 0.15]) = Ok Open.
Proof.
  intros Hcp Hsell target stop st. subst st.
  rewrite (monitor_decide_cases fos sell p target stop t cp Hcp).
  destruct (target <=? cp)%float; [|destruct (cp <=? stop)%float];
    simpl; rewrite ?Hsell; simpl;
    repeat split; try reflexivity; try discriminate;
    try (intros [? ?]; discriminate); try (intros; discriminate).
Qed.

Lemma monitor_thresholds_witness :
  outcome (monitor_decide digits_float_of_str V1.sell_token v1_position
             (buy_price v1_position * V1.PROFIT_TARGET_MULTIPLIER)%float
             (buy_price v1_position * V1.STOP_LOSS_RATIO)%float (v1_token 0.2))
  = Ok Closed_Profit.
Proof.
  apply (monitor_thresholds digits_float_of_str V1.PROFIT_TARGET_MULTIPLIER
           V1.STOP_LOSS_RATIO V1.sell_token v1_position (v1_token 0.2)
           0.2%float (JFloat 0.1)); reflexivity.
Defined.

(** C9.  The profit test comes first: on a price that meets both the profit
    target and the stop loss, the pass prints the profit message and sells
    once, through the profit branch; it does not end as a stop loss, and with
    the [sell_token] of v6 and of v1 the stop-loss message is never printed. *)
Theorem profit_branch_first fos (sell : position -> M json)
    (p : position) (target stop : float) (t : json) (cp : float) :
  outcome (get_float fos t "priceUsd") = Ok cp ->
  (target <=? cp)%float = true ->
  (cp <=? stop)%float = true ->
  events (monitor_decide fos sell p target stop t) =
    Print "[MONITOR] current price" :: Print "[MONITOR] Profit target reached."
      :: events (sell p) /\
  outcome (monitor_decide fos sell p target stop t) =
    closed_by Closed_Profit (outcome (sell p)) /\
  outcome (monitor_decide fos sell p target stop t) <> Ok Closed_StopLoss /\
  (forall real rpc,
     ~ In (Print "[MONITOR] Stop loss triggered.")
          (events (monitor_decide fos (V6.sell_token real rpc) p target stop t))) /\
  ~ In (Print "[MONITOR] Stop loss triggered.")
       (events (monitor_decide fos V1.sell_token p target stop t)).
Proof.
  intros Hcp Hprofit Hstop.
  assert (Hrun : forall s, monitor_decide fos s p target stop t =
            (Print "[MONITOR] current price" :: Print "[MONITOR] Profit target reached."
               :: events (s p), closed_by Closed_Profit (outcome (s p)))).
  { intros s. rewrite (monitor_decide_cases fos s p target stop t cp Hcp).
    now rewrite Hprofit. }
  split; [|split; [|split; [|split]]].
  - now rewrite Hrun.
  - now rewrite Hrun.
  - rewrite Hrun. simpl. destruct (outcome (sell p)); simpl; discriminate.
  - intros real rpc. rewrite Hrun. simpl. intros [H|[H|H]]; try discriminate.
    now apply (v6_sell_events real rpc p).
  - rewrite Hrun. simpl. intros [H|[H|H]]; try discriminate.
    now apply (v1_sell_events p).
Qed.

(** A misconfigured pair of thresholds: target 0.08, stop loss 0.2. *)
Lemma profit_branch_first_witness :
  outcome (monitor_decide digits_float_of_str V1.sell_token v1_position
             (0.1 * 0.8)%float (0.1 * 2.0)%float (v1_token 0.1))
  = Ok Closed_Profit.
Proof.
  pose proof (profit_branch_first digits_float_of_str V1.sell_token v1_position
                (0.1 * 0.8)%float (0.1 * 2.0)%float (v1_token 0.1) 0.1%float
                eq_refl eq_refl eq_refl) as [_ [H _]].
  exact H.
Defined.

(* ===================================================================== *)
(** ** The score *)
(* ===================================================================== *)

Section ScoreFacts.

Variable fos : string -> option float.
(** [float("")] raises [ValueError]. *)
Hypothesis float_of_empty : fos "" = None.

Lemma float_of_Z_0 : float_of_Z 0 = Ok 0%float.
Proof. reflexivity. Qed.

Lemma get_float_field (d : list (string * json)) (k : string) (x : float) :
  field fos d k = Some x -> get_float fos (JDict d) k = ([], Ok x).
Proof.
  unfold field, number_of, get_float, lift. simpl.
  destruct (assoc k d) as [v|].
  - destruct (py_float fos v) as [f|e]; [|discriminate].
    intros [= <-]. reflexivity.
  - intros [= <-]. reflexivity.
Qed.

(** What [float(v or 0)] and [float(v) if v else 0] make of a value that
    holds the number [mc]: [mc] itself, or [0.0] for a zero. *)
Lemma falsy_number (v : json) (mc : float) :
  number_of fos v = Some mc -> py_truthy v = false ->
  (mc =? 0)%float = true.
Proof.
  unfold number_of.
  destruct v as [|b|z|f|s|l|l]; simpl; try discriminate.
  - destruct b; [discriminate|]. now intros [= <-] _.
  - intros H Hz. apply negb_false_iff, Z.eqb_eq in Hz. subst z.
    rewrite float_of_Z_0 in H. now injection H as <-.
  - intros [= <-] H. now apply negb_false_iff in H.
  - intros H Hs. apply negb_false_iff, String.eqb_eq in Hs. subst s.
    now rewrite float_of_empty in H.
Qed.

Lemma v6_market_cap_value (v : json) (mc : float) :
  number_of fos v = Some mc ->
  exists mc', py_float fos (py_or v (JInt 0)) = Ok mc' /\
              (mc' = mc \/ (mc' = 0%float /\ (mc =? 0)%float = true)).
Proof.
  intros H. unfold py_or. destruct (py_truthy v) eqn:T.
  - exists mc. split; [|now left]. unfold number_of in H.
    destruct (py_float fos v); [now injection H as ->|discriminate].
  - exists 0%float. split; [reflexivity|]. right. split; [reflexivity|].
    now apply (falsy_number v).
Qed.

Lemma cap_value_number (d : list (string * json)) (mc : float) :
  market_cap fos d = Some mc -> number_of fos (cap_value d) = Some mc.
Proof.
  unfold market_cap, cap_value, field.
  destruct (assoc "marketCapUsd" d); [trivial|].
  destruct (assoc "fdvUsd" d); [trivial|].
  intros [= <-]. reflexivity.
Qed.

Lemma v6_score_body_value (d : list (string * json)) (mc liq vol : float) :
  market_cap fos d = Some mc ->
  field fos d "liquidityUsd" = Some liq ->
  field fos d "volumeUsd24Hr" = Some vol ->
  exists mc', V6.score_body fos (JDict d) = ([], Ok (score_formula mc' liq vol)) /\
              (mc' = mc \/ (mc' = 0%float /\ (mc =? 0)%float = true)).
Proof.
  intros Hmc Hliq Hvol.
  destruct (v6_market_cap_value _ _ (cap_value_number d mc Hmc)) as [mc' [E Hrel]].
  exists mc'. split; [|exact Hrel].
  unfold V6.score_body. simpl py_get. rewrite !bind_lift_ok.
  change (match assoc "marketCapUsd" d with
          | Some v => v
          | None => match assoc "fdvUsd" d with Some v => v | None => JInt 0 end
          end) with (cap_value d).
  rewrite E, bind_lift_ok.
  rewrite (get_float_field _ _ _ Hliq), bind_ok.
  rewrite (get_float_field _ _ _ Hvol), bind_ok. reflexivity.
Qed.

Lemma v5_market_cap_of_value (d : list (string * json)) (mc : float) :
  market_cap fos d = Some mc ->
  exists mc', V5.market_cap_of fos (JDict d) = ([], Ok mc') /\
              (mc' = mc \/ (mc' = 0%float /\ (mc =? 0)%float = true)).
Proof.
  intros Hmc. pose proof (cap_value_number d mc Hmc) as Hn.
  unfold V5.market_cap_of. simpl py_get. rewrite !bind_lift_ok.
  change (match assoc "marketCapUsd" d with
          | Some v => v
          | None => match assoc "fdvUsd" d with Some v => v | None => JInt 0 end
          end) with (cap_value d).
  destruct (py_truthy (cap_value d)) eqn:T.
  - exists mc. split; [|now left]. unfold number_of in Hn.
    destruct (py_float fos (cap_value d)); [now injection Hn as ->|discriminate].
  - exists 0%float. split; [reflexivity|]. right. split; [reflexivity|].
    now apply (falsy_number (cap_value d)).
Qed.

Lemma v5_score_body_value (d : list (string * json)) (mc liq vol : float) :
  market_cap fos d = Some mc ->
  field fos d "liquidityUsd" = Some liq ->
  field fos d "volumeUsd24Hr" = Some vol ->
  exists mc', V5.score_body fos (JDict d) = ([], Ok (score_formula mc' liq vol)) /\
              (mc' = mc \/ (mc' = 0%float /\ (mc =? 0)%float = true)).
Proof.
  intros Hmc Hliq Hvol.
  destruct (v5_market_cap_of_value d mc Hmc) as [mc' [E Hrel]].
  exists mc'. split; [|exact Hrel].
  unfold V5.score_body. rewrite E, bind_ok.
  rewrite (get_float_field _ _ _ Hliq), bind_ok.
  rewrite (get_float_field _ _ _ Hvol), bind_ok. reflexivity.
Qed.

Lemma score_rel (mc' mc liq vol : float) :
  mc' = mc \/ (mc' = 0%float /\ (mc =? 0)%float = true) ->
  num_eq (score_formula mc' liq vol) (score_formula mc liq vol).
Proof.
  intros [->|[-> H]]; [apply num_eq_refl|now apply score_formula_zero].
Qed.

End ScoreFacts.

(** C3.  For a record whose market cap ([marketCapUsd], or [fdvUsd] when that
    field is absent), liquidity and 24h volume are numbers, a missing field
    counting as 0, [score_token] (v6 and v5) returns
    [marketCap/100000 + liquidityUsd/50000 + volumeUsd24h/1000000]. *)
Theorem score_token_formula fos (d : list (string * json)) (mc liq vol : float) :
  fos "" = None ->
  market_cap fos d = Some mc ->
  field fos d "liquidityUsd" = Some liq ->
  field fos d "volumeUsd24Hr" = Some vol ->
  (exists s, outcome (V6.score_token fos (JDict d)) = Ok s /\
             num_eq s (mc / 100000 + liq / 50000 + vol / 1000000)%float) /\
  (exists s, outcome (V5.score_token fos (JDict d)) = Ok s /\
             num_eq s (mc / 100000 + liq / 50000 + vol / 1000000)%float).
Proof.
  intros He Hmc Hliq Hvol. split.
  - destruct (v6_score_body_value fos He d mc liq vol Hmc Hliq Hvol) as [mc' [E R]].
    exists (score_formula mc' liq vol). split.
    + unfold V6.score_token. rewrite E. reflexivity.
    + now apply score_rel.
  - destruct (v5_score_body_value fos He d mc liq vol Hmc Hliq Hvol) as [mc' [E R]].
    exists (score_formula mc' liq vol). split.
    + unfold V5.score_token. rewrite E. reflexivity.
    + now apply score_rel.
Qed.

Lemma score_token_formula_witness :
  exists s, outcome (V6.score_token digits_float_of_str scenario_token) = Ok s /\
            num_eq s (500000 / 100000 + 60000 / 50000 + 1500000 / 1000000)%float.
Proof.
  apply (score_token_formula digits_float_of_str
           [("tokenAddress", JStr "A"); ("marketCapUsd", JInt 500000);
            ("liquidityUsd", JInt 60000); ("volumeUsd24Hr", JInt 1500000);
            ("priceUsd", JFloat 0.1); ("pairAgeHours", JInt 10);
            ("txns1h", JInt 40)]
           500000%float 60000%float 1500000%float); reflexivity.
Defined.
(* ===================================================================== *)
(** ** The tiers *)
(* ===================================================================== *)

Lemma read_fields_events fos (t : json) : events (V6.read_fields fos t) = [].
Proof.
  unfold V6.read_fields.
  repeat (apply events_bind_nil;
          [first [apply get_float_events | apply events_lift] | intros ?]).
  apply events_bind_nil; [destruct (py_truthy _); reflexivity | intros ?].
  repeat (apply events_bind_nil;
          [first [apply get_float_events | apply events_lift] | intros ?]).
  reflexivity.
Qed.

Lemma read_fields_ok fos (t : json) (f : V6.tier_fields) :
  outcome (V6.read_fields fos t) = Ok f -> V6.read_fields fos t = ([], Ok f).
Proof.
  intros H. rewrite (M_eta (V6.read_fields fos t)), read_fields_events, H.
  reflexivity.
Qed.

(** The chain of [if]s of [categorize_token] is the search of the table. *)
Lemma tier_of_first_tier (f : V6.tier_fields) :
  V6.tier_of (V6.liquidity f) (V6.fdv f) (V6.pair_age f) (V6.txns1h f)
             (V6.txns24h f) (V6.volume24h f) (V6.volume6h f) = first_tier f.
Proof.
  unfold V6.tier_of, first_tier, tiers_in_order, find, tier_matches.
  rewrite <- !andb_assoc. reflexivity.
Qed.



(* ===================================================================== *)
(** ** The rejection checks *)
(* ===================================================================== *)

Lemma mapM_lift_events {A B} (f : A -> result B) (l : list A) :
  events (mapM (fun x => lift (f x)) l) = [].
Proof.
  induction l as [|x r IH]; [reflexivity|].
  change (events (y <- lift (f x) ;;
                  ys <- mapM (fun x => lift (f x)) r ;; ret (y :: ys)) = []).
  apply events_bind_nil; [reflexivity|intros y].
  apply events_bind_nil; [exact IH|reflexivity].
Qed.

Lemma load_config_run cfg : V6.load_config cfg = ([Call "load_config"], cfg).
Proof. unfold V6.load_config. destruct cfg; reflexivity. Qed.

(** A blacklist test enters [load_config] and nothing else. *)
Lemma in_blacklist_events cfg (lk ak : string) (t : json) :
  events (V6.in_blacklist cfg lk ak t) = [Call "load_config"].
Proof.
  unfold V6.in_blacklist. rewrite events_bind, load_config_run.
  rewrite outcome_mk, events_mk. destruct cfg as [c|e]; [|reflexivity].
  match goal with |- (_ ++ ?e)%list = _ => assert (E : e = []) end.
  { repeat (apply events_bind_nil; [apply events_lift|intros ?]).
    apply events_bind_nil; [apply mapM_lift_events|reflexivity]. }
  now rewrite E.
Qed.

Lemma coin_in_blacklist_events cfg (t : json) :
  events (V6.coin_in_blacklist cfg t)
  = [Call "coin_in_blacklist"; Call "load_config"].
Proof.
  unfold V6.coin_in_blacklist, call. rewrite bind_emit, events_mk.
  now rewrite in_blacklist_events.
Qed.

Lemma dev_in_blacklist_events cfg (t : json) :
  events (V6.dev_in_blacklist cfg t)
  = [Call "dev_in_blacklist"; Call "load_config"].
Proof.
  unfold V6.dev_in_blacklist, call. rewrite bind_emit, events_mk.
  now rewrite in_blacklist_events.
Qed.

Lemma check_supply_events (t : json) :
  events (V6.check_supply t) = [Call "check_supply"].
Proof.
  unfold V6.check_supply, call. rewrite bind_emit, events_mk. f_equal.
  apply events_bind_nil; [apply events_lift|reflexivity].
Qed.

Lemma verify_volume_run fos (t : json) (v : float) :
  outcome (get_float fos t "volumeUsd24Hr") = Ok v ->
  V6.verify_volume fos t = ([Call "verify_volume"], Ok (0 <? v)%float).
Proof.
  intros H. unfold V6.verify_volume, call.
  rewrite bind_emit, (get_float_ok _ _ _ _ H), bind_ok. reflexivity.
Qed.

Lemma market_cap_of_events fos (t : json) : events (V5.market_cap_of fos t) = [].
Proof.
  unfold V5.market_cap_of.
  repeat (apply events_bind_nil; [apply events_lift|intros ?]).
  destruct (py_truthy _); reflexivity.
Qed.

Lemma mapM_lower (bl : list string) :
  mapM (fun x => lift (py_lower x)) (map JStr bl) = ([], Ok (map lower bl)).
Proof.
  induction bl as [|b r IH]; [reflexivity|].
  change (bind (lift (py_lower (JStr b)))
            (fun y => bind (mapM (fun x => lift (py_lower x)) (map JStr r))
                        (fun ys => ret (y :: ys)))
          = ([], Ok (lower b :: map lower r))).
  rewrite IH. reflexivity.
Qed.

Lemma strings_of_map (l : list json) (bl : list string) :
  strings_of l = Some bl -> l = map JStr bl.
Proof.
  revert bl. induction l as [|v r IH]; intros bl H.
  - injection H as <-. reflexivity.
  - destruct v; try discriminate H. simpl in H.
    destruct (strings_of r) as [ss|]; [|discriminate H].
    injection H as <-. simpl. now rewrite (IH ss eq_refl).
Qed.

Lemma existsb_mapped {A B} (p : B -> bool) (g : A -> B) (l : list A) :
  existsb p (map g l) = existsb (fun x => p (g x)) l.
Proof. induction l as [|a r IH]; simpl; [reflexivity|now rewrite IH]. Qed.

(** A blacklist test on a well-formed configuration and record. *)
Lemma in_blacklist_entries (c d : list (string * json)) (lk ak : string)
    (bl : list string) (a : string) :
  blacklist_entries c lk = Some bl ->
  address_text d ak = Some a ->
  V6.in_blacklist (Ok (JDict c)) lk ak (JDict d)
  = ([Call "load_config"], Ok (listed a bl)).
Proof.
  unfold blacklist_entries, address_text. intros Hl Ha.
  assert (El : match assoc lk c with Some v => v | None => JList [] end
               = JList (map JStr bl)).
  { destruct (assoc lk c) as [[| | | | |l|]|]; try discriminate Hl.
    - now rewrite (strings_of_map l bl Hl).
    - now injection Hl as <-. }
  assert (Ea : match assoc ak d with Some v => v | None => JStr "" end = JStr a).
  { destruct (assoc ak d) as [[| | | |s| |]|]; try discriminate Ha;
      now injection Ha as <-. }
  unfold V6.in_blacklist. rewrite load_config_run, bind_ok.
  simpl py_get. rewrite El, Ea, !bind_lift_ok. simpl py_lower. simpl py_iter.
  rewrite !bind_lift_ok, mapM_lower, bind_ok. unfold ret, listed, str_in.
  rewrite events_mk, outcome_mk, existsb_mapped. reflexivity.
Qed.

Lemma check_supply_run (d : list (string * json)) :
  V6.check_supply (JDict d) = ([Call "check_supply"], Ok (negb (bundled d))).
Proof.
  unfold V6.check_supply, bundled, call. rewrite bind_emit. simpl py_get.
  rewrite bind_lift_ok. destruct (assoc "supplyBundled" d); reflexivity.
Qed.

Lemma floor_cap_run fos (d : list (string * json)) (cp : float) :
  floor_cap fos d = Some cp -> V5.market_cap_of fos (JDict d) = ([], Ok cp).
Proof.
  unfold floor_cap, V5.market_cap_of. simpl py_get. rewrite !bind_lift_ok.
  change (match assoc "marketCapUsd" d with
          | Some v => v
          | None => match assoc "fdvUsd" d with Some v => v | None => JInt 0 end
          end) with (cap_value d).
  destruct (py_truthy (cap_value d)).
  - unfold number_of. destruct (py_float fos (cap_value d)); [|discriminate].
    now intros [= ->].
  - now intros [= ->].
Qed.

Lemma facts_of_inv fos (c d : list (string * json)) (x : facts) :
  facts_of fos c d = Some x ->
  exists bc bd ac ad,
    blacklist_entries c "coin_blacklist" = Some bc /\
    blacklist_entries c "dev_blacklist" = Some bd /\
    address_text d "tokenAddress" = Some ac /\
    address_text d "devAddress" = Some ad /\
    field fos d "volumeUsd24Hr" = Some (volume x) /\
    floor_cap fos d = Some (cap x) /\
    field fos d "priceUsd" = Some (price x) /\
    coin_listed x = listed ac bc /\ dev_listed x = listed ad bd /\
    supply_bundled x = bundled d /\ rug_failed x = false.
Proof.
  unfold facts_of.
  destruct (blacklist_entries c "coin_blacklist") as [bc|]; [|discriminate].
  destruct (blacklist_entries c "dev_blacklist") as [bd|]; [|discriminate].
  destruct (address_text d "tokenAddress") as [ac|]; [|discriminate].
  destruct (address_text d "devAddress") as [ad|]; [|discriminate].
  destruct (field fos d "volumeUsd24Hr") as [vol|]; [|discriminate].
  destruct (floor_cap fos d) as [cp|]; [|discriminate].
  destruct (field fos d "priceUsd") as [pr|]; [|discriminate].
  destruct (forallb ascii_only (ac :: ad :: bc ++ bd)); [|discriminate].
  intros [= <-]. exists bc, bd, ac, ad. repeat split.
Qed.

(** The four checks of [categorize_token], as they run on a record. *)
Lemma reject_checks_run fos (c d : list (string * json)) (x : facts) :
  facts_of fos c d = Some x ->
  V6.reject_checks fos (Ok (JDict c)) (JDict d)
  = (apply_checks x categorize_checks,
     Ok (existsb (matches x) categorize_checks)).
Proof.
  intros H.
  destruct (facts_of_inv fos c d x H)
    as (bc & bd & ac & ad & Hbc & Hbd & Hac & Had & Hv & _ & _ & Ec & Ed & Es & Er).
  unfold V6.reject_checks, orM, notM, V6.coin_in_blacklist, V6.dev_in_blacklist,
    V6.verify_volume, V6.check_rug_status, call.
  rewrite (in_blacklist_entries c d _ _ bc ac Hbc Hac).
  rewrite (in_blacklist_entries c d _ _ bd ad Hbd Had).
  rewrite check_supply_run, (get_float_field fos d _ _ Hv).
  destruct x as [cl dl sb vol rf cp pr]; simpl in Ec, Ed, Es, Er.
  subst cl dl sb rf. simpl.
  destruct (listed ac bc), (listed ad bd), (bundled d), (0 <? vol)%float;
    reflexivity.
Qed.

(** The three checks of [advanced_rug_pull_check] (v5), as they run. *)
Lemma risk_check_run fos (c d : list (string * json)) (x : facts) :
  facts_of fos c d = Some x ->
  V5.advanced_rug_pull_check fos (JDict d)
  = (apply_checks x risk_checks, Ok (existsb (matches x) risk_checks)).
Proof.
  intros H.
  destruct (facts_of_inv fos c d x H)
    as (bc & bd & ac & ad & _ & _ & _ & _ & Hv & Hcap & Hp & _).
  unfold V5.advanced_rug_pull_check, V5.risk_body, call.
  rewrite (floor_cap_run fos d _ Hcap).
  rewrite (get_float_field fos d _ _ Hv), (get_float_field fos d _ _ Hp).
  destruct x as [cl dl sb vol rf cp pr]; simpl.
  unfold MIN_MARKET_CAP, MIN_VOLUME, MIN_PRICE.
  destruct (cp <? 100000)%float; [reflexivity|].
  destruct (vol <? 1000)%float; [reflexivity|].
  destruct (pr <? 0.0001)%float; reflexivity.
Qed.

Lemma categorize_token_run fos (c d : list (string * json)) (x : facts)
    (f : V6.tier_fields) :
  facts_of fos c d = Some x ->
  outcome (V6.read_fields fos (JDict d)) = Ok f ->
  V6.categorize_token fos (Ok (JDict c)) (JDict d)
  = (Call "categorize_token" :: apply_checks x categorize_checks,
     Ok (if existsb (matches x) categorize_checks then None else first_tier f)).
Proof.
  intros H Hf. unfold V6.categorize_token, V6.categorize_body, call.
  rewrite bind_emit.
  rewrite (read_fields_ok _ _ _ Hf), bind_ok, (reject_checks_run fos c d x H).
  rewrite tier_of_first_tier.
  destruct (existsb (matches x) categorize_checks); simpl;
    now rewrite ?app_nil_r.
Qed.

(** The trace of [apply_checks] stops at the first check that matches. *)
Lemma apply_checks_first (x : facts) (pre post : list check) (c : check) :
  matches x c = true ->
  Forall (fun c' => matches x c' = false) pre ->
  apply_checks x (pre ++ c :: post) = flat_map (check_events x) (pre ++ [c]).
Proof.
  intros Hc Hpre. induction Hpre as [|c' pre Hc' _ IH]; simpl.
  - now rewrite Hc.
  - now rewrite Hc', IH.
Qed.
Lemma apply_checks_none (x : facts) (cs : list check) :
  existsb (matches x) cs = false ->
  apply_checks x cs = flat_map (check_events x) cs.
Proof.
  induction cs as [|c r IH]; simpl; [reflexivity|].
  destruct (matches x c); [discriminate|]. intros H. now rewrite (IH H).
Qed.

Lemma existsb_first (x : facts) (pre post : list check) (c : check) :
  matches x c = true -> existsb (matches x) (pre ++ c :: post) = true.
Proof.
  intros Hc. rewrite existsb_app. simpl. rewrite Hc. apply orb_true_r.
Qed.

(** The seven checks are not the checks of one evaluation, and the third is
    not [volumeUsd24h <= 0].  A record whose volume is not a number matches
    none of the seven checks as they are worded, and [categorize_token]
    gives it no category: the run ends in [verify_volume], and the tiers
    would have made it Very Degen.  A record with [supplyBundled] true
    matches the second check, and v5, whose evaluation holds the last three
    checks only, buys it.  A record with a market cap of 50000 matches the
    fifth check, and [buy_token] of v6 skips it on the tiers, whether or not
    the name [advanced_rug_pull_check] is bound: the fifth check is not
    run. *)
Lemma seven_checks_not_applied :
  let nan_volume :=
      [("tokenAddress", JStr "A"); ("marketCapUsd", JInt 500000);
       ("liquidityUsd", JInt 60000); ("volumeUsd24Hr", JFloat (0 / 0));
       ("priceUsd", JFloat 0.1); ("pairAgeHours", JInt 10);
       ("txns1h", JInt 40)] in
  let bundled_supply :=
      [("tokenAddress", JStr "A"); ("marketCapUsd", JInt 500000);
       ("liquidityUsd", JInt 60000); ("volumeUsd24Hr", JInt 1500000);
       ("priceUsd", JFloat 0.1); ("pairAgeHours", JInt 10);
       ("txns1h", JInt 40); ("supplyBundled", JBool true)] in
  let low_cap :=
      [("tokenAddress", JStr "A"); ("marketCapUsd", JInt 50000);
       ("liquidityUsd", JInt 60000); ("volumeUsd24Hr", JInt 1500000);
       ("priceUsd", JFloat 0.1); ("pairAgeHours", JInt 10);
       ("txns1h", JInt 40)] in
  (exists x f,
      facts_of digits_float_of_str [] nan_volume = Some x /\
      existsb (stated_matches x) checks_in_order = false /\
      outcome (V6.read_fields digits_float_of_str (JDict nan_volume)) = Ok f /\
      first_tier f = Some V6.VeryDegen /\
      V6.categorize_token digits_float_of_str empty_config (JDict nan_volume)
      = ([Call "categorize_token"; Call "coin_in_blacklist"; Call "load_config";
          Call "dev_in_blacklist"; Call "load_config"; Call "check_supply";
          Call "verify_volume"], Ok None)) /\
  (exists x p,
      facts_of digits_float_of_str [] bundled_supply = Some x /\
      find (matches x) checks_in_order = Some SupplyBundled /\
      outcome (V5.buy_token digits_float_of_str false (Ok JNull)
                 (JDict bundled_supply)) = Ok (Some p)) /\
  (exists x,
      facts_of digits_float_of_str [] low_cap = Some x /\
      find (matches x) checks_in_order = Some MarketCapFloor /\
      (forall bound,
          V6.buy_token digits_float_of_str false (Ok JNull) empty_config bound
            (JDict low_cap)
          = ([Call "buy_token"; Call "categorize_token";
              Call "coin_in_blacklist"; Call "load_config";
              Call "dev_in_blacklist"; Call "load_config";
              Call "check_supply"; Call "verify_volume";
              Call "check_rug_status"; Call "score_token";
              Print "[FILTER] skipped"], Ok None))).
Proof.
  cbv zeta. split; [|split].
  - eexists. eexists. split; [vm_compute; reflexivity|].
    split; [vm_compute; reflexivity|]. split; [vm_compute; reflexivity|].
    split; vm_compute; reflexivity.
  - eexists. eexists. split; [vm_compute; reflexivity|].
    split; vm_compute; reflexivity.
  - eexists. split; [vm_compute; reflexivity|].
    split; [vm_compute; reflexivity|]. intros bound. reflexivity.
Qed.

(** C1, amended.  Take a configuration whose blacklists are lists of ASCII
    strings and a record whose addresses are ASCII strings and whose numeric
    fields are numbers.  The rejection checks are applied by two functions.
    [categorize_token] of v6 applies, in this order, (1) the coin-address and
    dev-address blacklists, (2) [supplyBundled] true, (3) a volume that is
    not above 0, which a volume of zero, a negative volume and a volume that
    is not a number all are, and (4) the rug status, which the simulated
    service never fails.  [advanced_rug_pull_check] of v5 applies, in this
    order, (5) a market cap below 100000, (6) a volume below 1000 and (7) a
    price below 0.0001.  In each function the first check that matches
    rejects the record and the later checks of that function are not run;
    when none of its checks matches all of them are run, in order, and the
    function passes the record: [categorize_token] goes on to the tiers and
    [advanced_rug_pull_check] answers [False]. *)
Theorem rejection_order fos (c d : list (string * json)) (x : facts)
    (f : V6.tier_fields) :
  facts_of fos c d = Some x ->
  outcome (V6.read_fields fos (JDict d)) = Ok f ->
  let categorize := V6.categorize_token fos (Ok (JDict c)) (JDict d) in
  let risk := V5.advanced_rug_pull_check fos (JDict d) in
  (events categorize = Call "categorize_token" :: apply_checks x categorize_checks /\
   outcome categorize
   = Ok (if existsb (matches x) categorize_checks then None else first_tier f)) /\
  (events risk = apply_checks x risk_checks /\
   outcome risk = Ok (existsb (matches x) risk_checks)) /\
  (forall pre c0 post,
      categorize_checks = (pre ++ c0 :: post)%list ->
      Forall (fun c' => matches x c' = false) pre ->
      matches x c0 = true ->
      events categorize
      = Call "categorize_token" :: flat_map (check_events x) (pre ++ [c0]) /\
      outcome categorize = Ok None) /\
  (forall pre c0 post,
      risk_checks = (pre ++ c0 :: post)%list ->
      Forall (fun c' => matches x c' = false) pre ->
      matches x c0 = true ->
      events risk = flat_map (check_events x) (pre ++ [c0]) /\
      outcome risk = Ok true) /\
  (existsb (matches x) categorize_checks = false ->
   events categorize
   = Call "categorize_token" :: flat_map (check_events x) categorize_checks /\
   outcome categorize = Ok (first_tier f)) /\
  (existsb (matches x) risk_checks = false ->
   events risk = flat_map (check_events x) risk_checks /\
   outcome risk = Ok false).
Proof.
  intros H Hf categorize risk. subst categorize risk.
  rewrite (categorize_token_run fos c d x f H Hf), (risk_check_run fos c d x H).
  rewrite !events_mk, !outcome_mk.
  split; [split; reflexivity|]. split; [split; reflexivity|].
  split; [|split; [|split]].
  - intros pre c0 post Hl Hpre Hc. rewrite Hl.
    rewrite (apply_checks_first x pre post c0 Hc Hpre).
    now rewrite (existsb_first x pre post c0 Hc).
  - intros pre c0 post Hl Hpre Hc. rewrite Hl.
    rewrite (apply_checks_first x pre post c0 Hc Hpre).
    now rewrite (existsb_first x pre post c0 Hc).
  - intros Hn. now rewrite (apply_checks_none x _ Hn), Hn.
  - intros Hn. now rewrite (apply_checks_none x _ Hn), Hn.
Qed.

Lemma rejection_order_witness :
  V6.categorize_token digits_float_of_str
    (Ok (JDict [("coin_blacklist", JList [JStr "a"])])) scenario_token
  = ([Call "categorize_token"; Call "coin_in_blacklist"; Call "load_config"],
     Ok None).
Proof.
  destruct (rejection_order digits_float_of_str
              [("coin_blacklist", JList [JStr "a"])]
              [("tokenAddress", JStr "A"); ("marketCapUsd", JInt 500000);
               ("liquidityUsd", JInt 60000); ("volumeUsd24Hr", JInt 1500000);
               ("priceUsd", JFloat 0.1); ("pairAgeHours", JInt 10);
               ("txns1h", JInt 40)]
              (mkFacts true false false 1500000 false 500000 0.1)
              (V6.mkFields 60000 500000 10 40 0 1500000 0)
              eq_refl eq_refl) as ((He & Ho) & _).
  unfold scenario_token. rewrite (M_eta (V6.categorize_token _ _ _)).
  rewrite He, Ho. reflexivity.
Defined.
(* ===================================================================== *)
(** ** Fail-safe evaluation *)
(* ===================================================================== *)

Section FailSafe.

Variable fos : string -> option float.



Lemma v6_score_token_returns (t : json) :
  exists s, outcome (V6.score_token fos t) = Ok s.
Proof.
  unfold V6.score_token. rewrite outcome_call.
  apply try_except_returns. intros e. now exists 0%float.
Qed.

Lemma v5_score_token_returns (t : json) :
  exists s, outcome (V5.score_token fos t) = Ok s.
Proof.
  unfold V5.score_token. rewrite outcome_call.
  apply try_except_returns. intros e. now exists 0%float.
Qed.






(** *** Fields that are not numbers *)












(** *** Records without numbers *)









End FailSafe.



(* ===================================================================== *)
(** ** The entry price of a position *)
(* ===================================================================== *)

(** Going back through a run that returned. *)
Ltac returned H :=
  repeat first
    [ discriminate H
    | apply outcome_bind_ok in H; destruct H as [? [? H]]
    | match type of H with
      | outcome (if ?b then _ else _) = _ => destruct b
      end ].

Lemma v5_buy_token_position fos real rpc (t : json) (p : position) :
  outcome (V5.buy_token fos real rpc t) = Ok (Some p) ->
  buy_price p = 0.1%float /\ quantity p = (V5.RISK_AMOUNT / 0.1)%float.
Proof.
  intros H. unfold V5.buy_token in H. cbv zeta in H. returned H.
  injection H as <-. split; reflexivity.
Qed.

Lemma v6_buy_token_position fos real rpc cfg arpc (t : json) (p : position) :
  outcome (V6.buy_token fos real rpc cfg arpc t) = Ok (Some p) ->
  buy_price p = 0.1%float /\ quantity p = (V6.RISK_AMOUNT / 0.1)%float.
Proof.
  intros H. unfold V6.buy_token in H. cbv zeta in H. returned H.
  injection H as <-. split; reflexivity.
Qed.

(** Two records that differ in [priceUsd] only: v5 opens a position on the
    first and none on the second, which its risk check flags for its price;
    and the positions v5 opens on two acceptable prices are not the same
    value, each holding its record. *)
Lemma position_depends_on_price :
  outcome (V5.buy_token digits_float_of_str false (Ok JNull)
             (priced_token 0.1)) = Ok (Some (bought 0.1)) /\
  outcome (V5.buy_token digits_float_of_str false (Ok JNull)
             (priced_token 0.00001)) = Ok None /\
  outcome (V5.buy_token digits_float_of_str false (Ok JNull) (priced_token 0.1))
  <> outcome (V5.buy_token digits_float_of_str false (Ok JNull) (priced_token 0.2)).
Proof.
  split; [|split].
  - vm_compute. reflexivity.
  - vm_compute. reflexivity.
  - vm_compute. intros H. discriminate H.
Qed.

(** C10, amended.  Every position [buy_token] opens (v5; v6 whatever the name
    [advanced_rug_pull_check] is bound to), in simulation and in real mode and
    whatever the trade returned, has [buy_price] 0.1 and [quantity]
    [RISK_AMOUNT / 0.1]: two runs that both open a position record the same
    entry price and the same quantity, whatever their records quote. *)
Theorem entry_price_constant fos real real' rpc rpc' cfg cfg' arpc arpc'
    (t t' : json) (p p' : position) :
  opens fos real rpc cfg arpc t p ->
  opens fos real' rpc' cfg' arpc' t' p' ->
  buy_price p = 0.1%float /\
  quantity p = (10 / 0.1)%float /\
  buy_price p' = buy_price p /\
  quantity p' = quantity p.
Proof.
  assert (E : forall real rpc cfg arpc t p,
             opens fos real rpc cfg arpc t p ->
             buy_price p = 0.1%float /\ quantity p = (10 / 0.1)%float).
  { intros r c g a u q [H|H].
    - exact (v5_buy_token_position _ _ _ _ _ H).
    - exact (v6_buy_token_position _ _ _ _ _ _ _ H). }
  intros H H'. destruct (E _ _ _ _ _ _ H) as [-> ->].
  destruct (E _ _ _ _ _ _ H') as [-> ->]. repeat split.
Qed.

Lemma entry_price_constant_witness :
  buy_price (bought 0.1) = 0.1%float /\
  quantity (bought 0.1) = (10 / 0.1)%float /\
  buy_price (bought 0.2) = buy_price (bought 0.1) /\
  quantity (bought 0.2) = quantity (bought 0.1).
Proof.
  apply (entry_price_constant digits_float_of_str false false (Ok JNull) (Ok JNull)
           empty_config empty_config None
           (Some (V5.advanced_rug_pull_check digits_float_of_str))
           (priced_token 0.1) (priced_token 0.2) (bought 0.1) (bought 0.2)).
  - left. vm_compute. reflexivity.
  - right. vm_compute. reflexivity.
Defined.
(* ===================================================================== *)
(** ** The set of discovered tokens *)
(* ===================================================================== *)








(** *** A token whose key is in the set *)



(** *** A key that is in the set stays there *)







(* ===================================================================== *)
(** ** [buy_token] of v6 *)
(* ===================================================================== *)

(** With the name [advanced_rug_pull_check] unbound, [buy_token] of v6 opens
    no position: a record with a category and a sufficient score reaches the
    call of the missing function. *)
Lemma v6_buy_token_unbound fos real rpc cfg (t : json) (p : position) :
  outcome (V6.buy_token fos real rpc cfg None t) <> Ok (Some p).
Proof.
  intros H. unfold V6.buy_token in H. cbv zeta in H.
  apply outcome_bind_ok in H. destruct H as [_ [_ H]].
  apply outcome_bind_ok in H. destruct H as [c [_ H]].
  apply outcome_bind_ok in H. destruct H as [s [_ H]].
  apply outcome_bind_ok in H. destruct H as [t' [_ H]].
  apply outcome_bind_ok in H. destruct H as [skip [Hskip H]].
  destruct skip.
  - apply outcome_bind_ok in H. destruct H as [_ [_ H]]. discriminate H.
  - unfold orM, V6.call_global in Hskip. rewrite !bind_ret in Hskip.
    destruct (V6.is_none c); [discriminate Hskip|].
    rewrite ?bind_ret in Hskip.
    destruct (s <? V6.MIN_SCORE_THRESHOLD)%float; discriminate Hskip.
Qed.

(** C4.  The record of the end-to-end scenario has a category, a score above
    the threshold and passes every rejection check, and v5 buys it.  In v6
    [buy_token] raises [NameError] on it before any trade, and [main] stops
    with that exception: the script calls [advanced_rug_pull_check] and does
    not define it.  As shipped, v6 opens no position on any record. *)
Theorem buy_token_name_error fos real rpc :
  outcome (V6.categorize_token fos empty_config scenario_token)
  = Ok (Some V6.VeryDegen) /\
  (exists s, outcome (V6.score_token fos scenario_token) = Ok s /\
             (V6.MIN_SCORE_THRESHOLD <=? s)%float = true) /\
  outcome (V5.advanced_rug_pull_check fos scenario_token) = Ok false /\
  outcome (V5.buy_token fos false rpc scenario_token) = Ok (Some (bought 0.1)) /\
  V6.buy_token fos real rpc empty_config None scenario_token
  = ([Call "buy_token";
      Call "categorize_token"; Call "coin_in_blacklist"; Call "load_config";
      Call "dev_in_blacklist"; Call "load_config"; Call "check_supply";
      Call "verify_volume"; Call "check_rug_status";
      Call "score_token"],
     Raise NameError) /\
  outcome (V6.main fos real rpc empty_config None [scenario_feed])
  = Raise NameError /\
  (forall cfg t p, outcome (V6.buy_token fos real rpc cfg None t) <> Ok (Some p)).
Proof.
  split; [|split; [|split; [|split; [|split; [|split]]]]].
  - vm_compute. reflexivity.
  - eexists. split; vm_compute; reflexivity.
  - vm_compute. reflexivity.
  - vm_compute. reflexivity.
  - vm_compute. reflexivity.
  - vm_compute. reflexivity.
  - intros cfg t p. apply v6_buy_token_unbound.
Qed.

(* ===================================================================== *)
(** ** Filtering by score *)
(* ===================================================================== *)

Lemma assoc_dict_set_same (k : string) (v : json) (d : list (string * json)) :
  assoc k (dict_set k v d) = Some v.
Proof.
  induction d as [|[k' v'] r IH]; simpl.
  - now rewrite String.eqb_refl.
  - destruct (String.eqb k k') eqn:E; simpl; rewrite ?String.eqb_refl, ?E; auto.
Qed.

Lemma assoc_dict_set_other (k k' : string) (v : json) (d : list (string * json)) :
  String.eqb k' k = false -> assoc k' (dict_set k v d) = assoc k' d.
Proof.
  intros Hne. induction d as [|[k1 v1] r IH]; simpl.
  - now rewrite Hne.
  - destruct (String.eqb k k1) eqn:E; simpl.
    + apply String.eqb_eq in E. subst k1. now rewrite Hne.
    + now rewrite IH.
Qed.

Lemma get_float_dict_set fos (k k' : string) (v : json) (d : list (string * json)) :
  String.eqb k' k = false ->
  get_float fos (JDict (dict_set k v d)) k' = get_float fos (JDict d) k'.
Proof.
  intros Hne. unfold get_float. simpl. now rewrite (assoc_dict_set_other _ _ _ _ Hne).
Qed.

(** The score does not read the field [score]. *)
Lemma v6_score_token_ignores_score fos (v : json) (d : list (string * json)) :
  V6.score_token fos (JDict (dict_set "score" v d)) = V6.score_token fos (JDict d).
Proof.
  unfold V6.score_token, V6.score_body. simpl py_get.
  rewrite !(assoc_dict_set_other "score") by reflexivity.
  now rewrite !(get_float_dict_set fos "score") by reflexivity.
Qed.

Lemma v5_market_cap_of_dict_set fos (k : string) (v : json) (d : list (string * json)) :
  String.eqb "fdvUsd" k = false -> String.eqb "marketCapUsd" k = false ->
  V5.market_cap_of fos (JDict (dict_set k v d)) = V5.market_cap_of fos (JDict d).
Proof.
  intros H1 H2. unfold V5.market_cap_of. simpl py_get.
  now rewrite (assoc_dict_set_other _ _ _ _ H1), (assoc_dict_set_other _ _ _ _ H2).
Qed.

Lemma v5_score_token_ignores_score fos (v : json) (d : list (string * json)) :
  V5.score_token fos (JDict (dict_set "score" v d)) = V5.score_token fos (JDict d).
Proof.
  unfold V5.score_token, V5.score_body.
  rewrite (v5_market_cap_of_dict_set fos "score") by reflexivity.
  now rewrite !(get_float_dict_set fos "score") by reflexivity.
Qed.

Lemma kept_from_cons sc (m : float) (t0 : json) (l : list json) (t' : json) :
  kept_from sc m l t' -> kept_from sc m (t0 :: l) t'.
Proof.
  intros (t & s & Hin & H). exists t, s. split; [now right|exact H].
Qed.

Lemma v6_filter_loop_kept fos (m : float) (l : list json) :
  forall kept,
    outcome (V6.filter_loop fos m l) = Ok kept ->
    Forall (kept_from (V6.score_token fos) m l) kept /\
    (List.length kept <= List.length l)%nat.
Proof.
  induction l as [|t rest IH]; intros kept H.
  - injection H as <-. split; [constructor|apply le_n].
  - cbn [V6.filter_loop] in H.
    apply outcome_bind_ok in H. destruct H as [s [Hs H]].
    destruct (m <=? s)%float eqn:Hm.
    + apply outcome_bind_ok in H. destruct H as [t' [Ht' H]].
      apply outcome_bind_ok in H. destruct H as [filtered [Hf H]].
      injection H as <-. destruct (IH _ Hf) as [IH1 IH2]. split.
      * constructor.
        -- exists t, s. repeat split; [now left|exact Hs|exact Hm|exact Ht'].
        -- eapply Forall_impl; [|exact IH1]. intros a. apply kept_from_cons.
      * simpl. now apply le_n_S.
    + destruct (IH _ H) as [IH1 IH2]. split.
      * eapply Forall_impl; [|exact IH1]. intros a. apply kept_from_cons.
      * simpl. now apply le_S.
Qed.

Lemma v5_filter_loop_kept fos (m : float) (l : list json) :
  forall kept,
    outcome (V5.filter_loop fos m l) = Ok kept ->
    Forall (kept_from (V5.score_token fos) m l) kept /\
    (List.length kept <= List.length l)%nat.
Proof.
  induction l as [|t rest IH]; intros kept H.
  - injection H as <-. split; [constructor|apply le_n].
  - cbn [V5.filter_loop] in H.
    apply outcome_bind_ok in H. destruct H as [s [Hs H]].
    destruct (m <=? s)%float eqn:Hm.
    + apply outcome_bind_ok in H. destruct H as [t' [Ht' H]].
      apply outcome_bind_ok in H. destruct H as [filtered [Hf H]].
      injection H as <-. destruct (IH _ Hf) as [IH1 IH2]. split.
      * constructor.
        -- exists t, s. repeat split; [now left|exact Hs|exact Hm|exact Ht'].
        -- eapply Forall_impl; [|exact IH1]. intros a. apply kept_from_cons.
      * simpl. now apply le_n_S.
    + destruct (IH _ H) as [IH1 IH2]. split.
      * eapply Forall_impl; [|exact IH1]. intros a. apply kept_from_cons.
      * simpl. now apply le_S.
Qed.

(** A kept token passes the score test of [buy_token] again. *)
Lemma v6_kept_scores_again fos (m : float) (l : list json) (t' : json) :
  kept_from (V6.score_token fos) m l t' ->
  exists s, outcome (V6.score_token fos t') = Ok s /\
            (m <=? s)%float = true /\ (s <? m)%float = false.
Proof.
  intros (t & s & _ & Hs & Hm & Hset). exists s.
  destruct t as [| | | | | |d]; try discriminate Hset.
  injection Hset as <-. rewrite v6_score_token_ignores_score.
  repeat split; [exact Hs|exact Hm|now apply leb_true_ltb_false].
Qed.

Lemma v5_kept_scores_again fos (m : float) (l : list json) (t' : json) :
  kept_from (V5.score_token fos) m l t' ->
  exists s, outcome (V5.score_token fos t') = Ok s /\
            (m <=? s)%float = true /\ (s <? m)%float = false.
Proof.
  intros (t & s & _ & Hs & Hm & Hset). exists s.
  destruct t as [| | | | | |d]; try discriminate Hset.
  injection Hset as <-. rewrite v5_score_token_ignores_score.
  repeat split; [exact Hs|exact Hm|now apply leb_true_ltb_false].
Qed.

(** X1.  What [filter_tokens] (v6 and v5) returns: each token it keeps is a
    token of the input whose score is at least [min_score], with that score
    stored in its field [score]; no token is added; and scoring a kept token
    again gives a score that is not below [min_score], so the score test of
    [buy_token] cannot skip a token that [main] passes on. *)
Theorem filter_tokens_kept fos (tokens : json) (m : float) (kept : list json) :
  outcome (V6.filter_tokens fos tokens m) = Ok kept \/
  outcome (V5.filter_tokens fos tokens m) = Ok kept ->
  exists l,
    py_iter tokens = Ok l /\
    (List.length kept <= List.length l)%nat /\
    Forall (fun t' =>
              (kept_from (V6.score_token fos) m l t' \/
               kept_from (V5.score_token fos) m l t') /\
              exists d s, t' = JDict d /\ assoc "score" d = Some (JFloat s) /\
                          (m <=? s)%float = true /\
                          (outcome (V6.score_token fos t') = Ok s \/
                           outcome (V5.score_token fos t') = Ok s) /\
                          (s <? m)%float = false) kept.
Proof.
  intros [H|H].
  - unfold V6.filter_tokens in H. rewrite outcome_call in H.
    apply outcome_bind_ok in H. destruct H as [l [Hl H]].
    exists l. destruct (v6_filter_loop_kept fos m l kept H) as [K1 K2].
    split; [exact Hl|]. split; [exact K2|].
    eapply Forall_impl; [|exact K1]. intros t' K. split; [now left|].
    destruct (v6_kept_scores_again fos m l t' K) as (s' & Hs' & Hm' & Hlt).
    destruct K as (t & s & _ & Hs & Hm & Hset).
    destruct t as [| | | | | |d]; try discriminate Hset.
    injection Hset as <-.
    assert (s' = s).
    { rewrite v6_score_token_ignores_score, Hs in Hs'. now injection Hs'. }
    subst s'. exists (dict_set "score" (JFloat s) d), s.
    repeat split; auto. apply assoc_dict_set_same.
  - unfold V5.filter_tokens in H. rewrite outcome_call in H.
    apply outcome_bind_ok in H. destruct H as [l [Hl H]].
    exists l. destruct (v5_filter_loop_kept fos m l kept H) as [K1 K2].
    split; [exact Hl|]. split; [exact K2|].
    eapply Forall_impl; [|exact K1]. intros t' K. split; [now right|].
    destruct (v5_kept_scores_again fos m l t' K) as (s' & Hs' & Hm' & Hlt).
    destruct K as (t & s & _ & Hs & Hm & Hset).
    destruct t as [| | | | | |d]; try discriminate Hset.
    injection Hset as <-.
    assert (s' = s).
    { rewrite v5_score_token_ignores_score, Hs in Hs'. now injection Hs'. }
    subst s'. exists (dict_set "score" (JFloat s) d), s.
    repeat split; auto. apply assoc_dict_set_same.
Qed.

Lemma filter_tokens_kept_witness :
  (List.length [token (bought 0.1)] <= 2)%nat.
Proof.
  assert (H : outcome (V6.filter_tokens digits_float_of_str
                         (JList [scenario_token; small_token]) 2)
              = Ok [token (bought 0.1)]) by (vm_compute; reflexivity).
  destruct (filter_tokens_kept digits_float_of_str
              (JList [scenario_token; small_token]) 2 [token (bought 0.1)]
              (or_introl H)) as (l & Hl & Hlen & _).
  injection Hl as <-. exact Hlen.
Defined.

(** A value that is not a dict scores 0. *)
Lemma v6_score_token_not_dict fos (t : json) :
  (forall d, t <> JDict d) -> outcome (V6.score_token fos t) = Ok 0%float.
Proof.
  intros H. destruct t; try reflexivity. now contradiction (H d).
Qed.

Lemma v5_score_token_not_dict fos (t : json) :
  (forall d, t <> JDict d) -> outcome (V5.score_token fos t) = Ok 0%float.
Proof.
  intros H. destruct t; try reflexivity. now contradiction (H d).
Qed.

Lemma positive_not_leb_zero (m : float) :
  (0 <? m)%float = true -> (m <=? 0)%float = false.
Proof.
  intros H. destruct (m <=? 0)%float eqn:E; [|reflexivity].
  apply leb_true_ltb_false in E. congruence.
Qed.

Lemma v6_filter_loop_returns fos (m : float) (l : list json) :
  (0 <? m)%float = true -> exists kept, outcome (V6.filter_loop fos m l) = Ok kept.
Proof.
  intros Hm. induction l as [|t rest [kept IH]]; [now exists []|].
  cbn [V6.filter_loop]. rewrite outcome_bind.
  destruct (v6_score_token_returns fos t) as [s Hs]. rewrite Hs.
  destruct (m <=? s)%float eqn:E; [|now exists kept].
  destruct t as [| | | | | |d];
    try (rewrite v6_score_token_not_dict in Hs by discriminate;
         injection Hs as <-; rewrite (positive_not_leb_zero m Hm) in E;
         discriminate E).
  simpl py_setitem. rewrite bind_lift_ok, outcome_bind, IH. now eexists.
Qed.

Lemma v5_filter_loop_returns fos (m : float) (l : list json) :
  (0 <? m)%float = true -> exists kept, outcome (V5.filter_loop fos m l) = Ok kept.
Proof.
  intros Hm. induction l as [|t rest [kept IH]]; [now exists []|].
  cbn [V5.filter_loop]. rewrite outcome_bind.
  destruct (v5_score_token_returns fos t) as [s Hs]. rewrite Hs.
  destruct (m <=? s)%float eqn:E; [|now exists kept].
  destruct t as [| | | | | |d];
    try (rewrite v5_score_token_not_dict in Hs by discriminate;
         injection Hs as <-; rewrite (positive_not_leb_zero m Hm) in E;
         discriminate E).
  simpl py_setitem. rewrite bind_lift_ok, outcome_bind, IH. now eexists.
Qed.

Lemma py_iter_raises (v : json) (e : exn) : py_iter v = Raise e -> e = TypeError.
Proof. destruct v; simpl; congruence. Qed.

(** X2.  With a positive threshold [filter_tokens] (v6 and v5) raises on no
    token, whatever the tokens are: it returns whenever its argument can be
    iterated, and raises [TypeError] when it cannot.  Nothing catches that
    exception: a feed answer whose [data] field is a number stops [main]. *)
Theorem filter_tokens_raises_only_on_non_iterable fos (tokens : json) (m : float) :
  (0 <? m)%float = true ->
  ((exists kept, outcome (V6.filter_tokens fos tokens m) = Ok kept) <->
   (exists l, py_iter tokens = Ok l)) /\
  ((exists kept, outcome (V5.filter_tokens fos tokens m) = Ok kept) <->
   (exists l, py_iter tokens = Ok l)) /\
  ((forall l, py_iter tokens <> Ok l) ->
   outcome (V6.filter_tokens fos tokens m) = Raise TypeError /\
   outcome (V5.filter_tokens fos tokens m) = Raise TypeError) /\
  ((forall l, py_iter tokens <> Ok l) -> py_truthy tokens = true ->
   forall real rpc cfg arpc st5 st6,
     outcome (V6.main_tick fos real rpc cfg arpc
                (Body (JDict [("data", tokens)])) st6) = Raise TypeError /\
     outcome (V5Loop.main_tick fos real rpc
                (Body (JDict [("data", tokens)])) st5) = Raise TypeError).
Proof.
  intros Hm.
  assert (R6 : forall l, py_iter tokens = Ok l ->
                 exists kept, outcome (V6.filter_tokens fos tokens m) = Ok kept).
  { intros l Hl. unfold V6.filter_tokens.
    rewrite outcome_call, Hl, bind_lift_ok. now apply v6_filter_loop_returns. }
  assert (R5 : forall l, py_iter tokens = Ok l ->
                 exists kept, outcome (V5.filter_tokens fos tokens m) = Ok kept).
  { intros l Hl. unfold V5.filter_tokens.
    rewrite outcome_call, Hl, bind_lift_ok. now apply v5_filter_loop_returns. }
  assert (F : forall m, (forall l, py_iter tokens <> Ok l) ->
              outcome (V6.filter_tokens fos tokens m) = Raise TypeError /\
              outcome (V5.filter_tokens fos tokens m) = Raise TypeError).
  { intros m' Hn. destruct (py_iter tokens) as [l|e] eqn:E; [now contradiction (Hn l)|].
    apply py_iter_raises in E as He. subst e.
    unfold V6.filter_tokens, V5.filter_tokens. rewrite !outcome_call, E.
    split; reflexivity. }
  split; [|split; [|split]].
  - split.
    + intros [kept H]. destruct (py_iter tokens) as [l|e] eqn:E; [now exists l|].
      unfold V6.filter_tokens in H. rewrite outcome_call, E in H. discriminate H.
    + intros [l Hl]. now apply (R6 l).
  - split.
    + intros [kept H]. destruct (py_iter tokens) as [l|e] eqn:E; [now exists l|].
      unfold V5.filter_tokens in H. rewrite outcome_call, E in H. discriminate H.
    + intros [l Hl]. now apply (R5 l).
  - exact (F m).
  - intros Hn Ht real rpc cfg arpc st5 st6.
    destruct (F V6.MIN_SCORE_THRESHOLD Hn) as [F6 _].
    destruct (F V5.MIN_SCORE_THRESHOLD Hn) as [_ F5].
    assert (E6 : V6.fetch_tokens (Body (JDict [("data", tokens)]))
                 = ([Call "fetch_tokens"; Print "[DEBUG] HTTP Status Code"],
                    Ok tokens)) by reflexivity.
    assert (E5 : V5.fetch_tokens (Body (JDict [("data", tokens)]))
                 = ([Call "fetch_tokens"; Print "[DEBUG] HTTP Status Code"],
                    Ok tokens)) by reflexivity.
    unfold V6.main_tick, V5Loop.main_tick. rewrite E6, E5, !bind_ok, !outcome_mk, Ht.
    split.
    + rewrite outcome_bind, F6. reflexivity.
    + rewrite outcome_bind, F5. reflexivity.
Qed.

Lemma filter_tokens_raises_only_on_non_iterable_witness :
  outcome (V6.filter_tokens digits_float_of_str (JInt 5) 2) = Raise TypeError.
Proof.
  destruct (filter_tokens_raises_only_on_non_iterable digits_float_of_str
              (JInt 5) 2 eq_refl) as (_ & _ & H & _).
  apply H. intros l. discriminate.
Defined.

(* ===================================================================== *)
(** ** The blacklists and the configuration file *)
(* ===================================================================== *)

Lemma in_blacklist_value (cfgd d : list (string * json)) (lk ak : string)
    (bl : list string) (a : string) :
  assoc lk cfgd = Some (JList (map JStr bl)) ->
  assoc ak d = Some (JStr a) ->
  V6.in_blacklist (Ok (JDict cfgd)) lk ak (JDict d)
  = ([Call "load_config"], Ok (str_in (lower a) (map lower bl))).
Proof.
  intros Hl Ha. unfold V6.in_blacklist. rewrite load_config_run, bind_ok.
  simpl py_get. rewrite Hl, Ha, !bind_lift_ok. simpl py_lower. simpl py_iter.
  rewrite !bind_lift_ok, mapM_lower. reflexivity.
Qed.

Lemma str_in_lower (a : string) (bl : list string) :
  str_in (lower a) (map lower bl) = existsb (fun b => String.eqb (lower a) (lower b)) bl.
Proof.
  unfold str_in. induction bl as [|b r IH]; simpl; [reflexivity|]. now rewrite IH.
Qed.

(** A record one of the two blacklist tests reports has no category. *)
Lemma categorize_token_listed fos cfg (t : json) :
  outcome (V6.coin_in_blacklist cfg t) = Ok true \/
  outcome (V6.dev_in_blacklist cfg t) = Ok true ->
  outcome (V6.categorize_token fos cfg t) = Ok None.
Proof.
  intros H. unfold V6.categorize_token, V6.categorize_body.
  rewrite outcome_call, outcome_try_except, outcome_bind.
  destruct (outcome (V6.read_fields fos t)); [|reflexivity].
  rewrite outcome_bind. unfold V6.reject_checks at 1. rewrite outcome_bind.
  unfold orM at 1. rewrite outcome_bind.
  destruct (outcome (V6.coin_in_blacklist cfg t)) as [[|]|e] eqn:Ec;
    try reflexivity.
  destruct H as [H|H]; [discriminate H|].
  unfold orM at 1. rewrite outcome_bind, H. reflexivity.
Qed.

(** X3.  The blacklist tests of v6 compare addresses without regard to the
    case of their letters: with a list of ASCII strings in [config.json] and
    an ASCII string address in the record, [coin_in_blacklist]
    ([dev_in_blacklist]) answers whether the lowered address is the lowering
    of an entry; and a record listed in either way gets no category. *)
Theorem blacklist_ignores_case fos (cfgd d : list (string * json)) :
  (forall bl a,
      forallb ascii_only bl = true -> ascii_only a = true ->
      assoc "coin_blacklist" cfgd = Some (JList (map JStr bl)) ->
      assoc "tokenAddress" d = Some (JStr a) ->
      outcome (V6.coin_in_blacklist (Ok (JDict cfgd)) (JDict d))
      = Ok (existsb (fun b => String.eqb (lower a) (lower b)) bl) /\
      (forall b, In b bl -> lower b = lower a ->
                 outcome (V6.categorize_token fos (Ok (JDict cfgd)) (JDict d))
                 = Ok None)) /\
  (forall bl a,
      forallb ascii_only bl = true -> ascii_only a = true ->
      assoc "dev_blacklist" cfgd = Some (JList (map JStr bl)) ->
      assoc "devAddress" d = Some (JStr a) ->
      outcome (V6.dev_in_blacklist (Ok (JDict cfgd)) (JDict d))
      = Ok (existsb (fun b => String.eqb (lower a) (lower b)) bl) /\
      (forall b, In b bl -> lower b = lower a ->
                 outcome (V6.categorize_token fos (Ok (JDict cfgd)) (JDict d))
                 = Ok None)).
Proof.
  split; intros bl a _ _ Hl Ha.
  - assert (E : outcome (V6.coin_in_blacklist (Ok (JDict cfgd)) (JDict d))
                = Ok (existsb (fun b => String.eqb (lower a) (lower b)) bl)).
    { unfold V6.coin_in_blacklist. rewrite outcome_call.
      rewrite (in_blacklist_value cfgd d _ _ bl a Hl Ha), outcome_mk.
      now rewrite str_in_lower. }
    split; [exact E|]. intros b Hb Hlow. apply categorize_token_listed. left.
    rewrite E. f_equal. apply existsb_exists. exists b. split; [exact Hb|].
    rewrite Hlow. apply String.eqb_refl.
  - assert (E : outcome (V6.dev_in_blacklist (Ok (JDict cfgd)) (JDict d))
                = Ok (existsb (fun b => String.eqb (lower a) (lower b)) bl)).
    { unfold V6.dev_in_blacklist. rewrite outcome_call.
      rewrite (in_blacklist_value cfgd d _ _ bl a Hl Ha), outcome_mk.
      now rewrite str_in_lower. }
    split; [exact E|]. intros b Hb Hlow. apply categorize_token_listed. right.
    rewrite E. f_equal. apply existsb_exists. exists b. split; [exact Hb|].
    rewrite Hlow. apply String.eqb_refl.
Qed.

Lemma blacklist_ignores_case_witness :
  outcome (V6.categorize_token digits_float_of_str
             (Ok (JDict [("coin_blacklist", JList [JStr "AbC"])]))
             (JDict [("tokenAddress", JStr "aBc"); ("liquidityUsd", JInt 60000)]))
  = Ok None.
Proof.
  destruct (blacklist_ignores_case digits_float_of_str
              [("coin_blacklist", JList [JStr "AbC"])]
              [("tokenAddress", JStr "aBc"); ("liquidityUsd", JInt 60000)])
    as [H _].
  destruct (H ["AbC"] "aBc" eq_refl eq_refl eq_refl eq_refl) as [_ Hc].
  apply (Hc "AbC"); [now left|reflexivity].
Defined.

(** *** Without a configuration file *)

Lemma categorize_token_no_config fos (e : exn) (t : json) :
  outcome (V6.categorize_token fos (Raise e) t) = Ok None.
Proof.
  unfold V6.categorize_token, V6.categorize_body.
  rewrite outcome_call, outcome_try_except, outcome_bind.
  destruct (outcome (V6.read_fields fos t)); [|reflexivity].
  rewrite outcome_bind. unfold V6.reject_checks at 1. rewrite outcome_bind.
  unfold orM at 1. rewrite outcome_bind.
  unfold V6.coin_in_blacklist, V6.in_blacklist.
  rewrite outcome_call, outcome_bind, load_config_run, outcome_mk. reflexivity.
Qed.

Lemma v6_discovery_no_config fos real rpc arpc (e : exn) (l : list json) :
  forall st st',
    outcome (V6.discovery_loop fos real rpc (Raise e) arpc l st) = Ok st' ->
    st' = st.
Proof.
  induction l as [|t rest IH]; intros st st' H.
  - now injection H as <-.
  - cbn [V6.discovery_loop] in H.
    apply outcome_bind_ok in H. destruct H as [sym [_ H]].
    apply outcome_bind_ok in H. destruct H as [c [Hc H]].
    rewrite categorize_token_no_config in Hc. injection Hc as <-.
    exact (IH _ _ H).
Qed.

Lemma v6_buy_token_no_config fos real rpc arpc (e : exn) (d : list (string * json)) :
  outcome (V6.buy_token fos real rpc (Raise e) arpc (JDict d)) = Ok None.
Proof.
  unfold V6.buy_token. rewrite outcome_call, outcome_bind.
  rewrite categorize_token_no_config, outcome_bind.
  destruct (v6_score_token_returns fos (JDict d)) as [s Hs]. rewrite Hs.
  simpl py_setitem. rewrite bind_lift_ok. unfold orM at 1.
  rewrite bind_ret. simpl V6.is_none. cbv iota. rewrite bind_ret. reflexivity.
Qed.

(** X4.  When [config.json] cannot be read (or is not JSON), v6 gives no
    record a category: [load_config] raises inside the [try] of
    [categorize_token].  [buy_token] then skips every record before it
    reaches the risk check, and a run of [main] that goes on leaves its
    positions and its set of discovered tokens as they were. *)
Theorem unreadable_config fos real rpc arpc (e : exn) :
  (forall t, outcome (V6.categorize_token fos (Raise e) t) = Ok None) /\
  (forall d, outcome (V6.buy_token fos real rpc (Raise e) arpc (JDict d)) = Ok None) /\
  (forall feed st st',
      outcome (V6.main_loop fos real rpc (Raise e) arpc feed st) = Ok st' ->
      st' = st).
Proof.
  split; [|split].
  - apply categorize_token_no_config.
  - apply v6_buy_token_no_config.
  - induction feed as [|r rest IH]; intros st st' H.
    + now injection H as <-.
    + cbn [V6.main_loop] in H.
      apply outcome_bind_ok in H. destruct H as [st1 [Htick H]].
      rewrite (IH _ _ H). unfold V6.main_tick in Htick.
      apply outcome_bind_ok in Htick. destruct Htick as [tokens [_ Htick]].
      destruct (py_truthy tokens).
      * apply outcome_bind_ok in Htick. destruct Htick as [l [_ Htick]].
        exact (v6_discovery_no_config fos real rpc arpc e l _ _ Htick).
      * apply outcome_bind_ok in Htick. destruct Htick as [_ [_ Htick]].
        now injection Htick as <-.
Qed.

Lemma unreadable_config_witness :
  outcome (V6.buy_token digits_float_of_str true (Raise RPCError) (Raise OSError)
             None scenario_token) = Ok None /\
  outcome (V6.main digits_float_of_str true (Raise RPCError) (Raise OSError) None
             [scenario_feed; scenario_feed]) = Ok (V6.mkState [] []).
Proof.
  destruct (unreadable_config digits_float_of_str true (Raise RPCError) None OSError)
    as (_ & Hb & Hm).
  split; [apply Hb|].
  destruct (outcome (V6.main digits_float_of_str true (Raise RPCError)
                       (Raise OSError) None [scenario_feed; scenario_feed]))
    as [st|e] eqn:E; [|vm_compute in E; discriminate E].
  f_equal. exact (Hm _ _ _ E).
Defined.

(* ===================================================================== *)
(** ** The fields a function reads *)
(* ===================================================================== *)

Ltac same_fields H d :=
  simpl py_get;
  repeat match goal with
         | |- context [assoc ?k d] => rewrite (H k) by (simpl; tauto)
         end;
  reflexivity.

Lemma categorize_token_reads fos cfg (d d' : list (string * json)) :
  agree categorize_reads d d' ->
  V6.categorize_token fos cfg (JDict d) = V6.categorize_token fos cfg (JDict d').
Proof.
  intros H.
  unfold V6.categorize_token, V6.categorize_body, V6.read_fields, V6.reject_checks,
    V6.coin_in_blacklist, V6.dev_in_blacklist, V6.in_blacklist, V6.check_supply,
    V6.verify_volume, get_float.
  same_fields H d.
Qed.

Lemma v6_score_token_reads fos (d d' : list (string * json)) :
  agree score_reads d d' ->
  V6.score_token fos (JDict d) = V6.score_token fos (JDict d').
Proof.
  intros H. unfold V6.score_token, V6.score_body, get_float. same_fields H d.
Qed.

Lemma v5_score_token_reads fos (d d' : list (string * json)) :
  agree score_reads d d' ->
  V5.score_token fos (JDict d) = V5.score_token fos (JDict d').
Proof.
  intros H. unfold V5.score_token, V5.score_body, V5.market_cap_of, get_float.
  same_fields H d.
Qed.

Lemma risk_check_reads fos (d d' : list (string * json)) :
  agree risk_reads d d' ->
  V5.advanced_rug_pull_check fos (JDict d) = V5.advanced_rug_pull_check fos (JDict d').
Proof.
  intros H.
  unfold V5.advanced_rug_pull_check, V5.risk_body, V5.market_cap_of, get_float.
  same_fields H d.
Qed.

(** Writing a key leaves the others as they are. *)
Lemma agree_dict_set (ks : list string) (k : string) (v : json)
    (d : list (string * json)) :
  ~ In k ks -> agree ks (dict_set k v d) d.
Proof.
  intros Hk k' Hin. apply assoc_dict_set_other.
  apply String.eqb_neq. intros ->. contradiction.
Qed.

(** X5.  What each function reads of a record.  [categorize_token] depends
    on eleven fields, [score_token] on four and the risk check of v5 on four:
    two records that agree on them run alike, same trace and same result.
    [priceUsd] is among the fields of the risk check only: changing the price
    of a record changes neither its category nor its score. *)
Theorem fields_read fos cfg (d d' : list (string * json)) :
  (agree categorize_reads d d' ->
   V6.categorize_token fos cfg (JDict d) = V6.categorize_token fos cfg (JDict d')) /\
  (agree score_reads d d' ->
   V6.score_token fos (JDict d) = V6.score_token fos (JDict d') /\
   V5.score_token fos (JDict d) = V5.score_token fos (JDict d')) /\
  (agree risk_reads d d' ->
   V5.advanced_rug_pull_check fos (JDict d)
   = V5.advanced_rug_pull_check fos (JDict d')) /\
  (forall price,
      V6.categorize_token fos cfg (JDict (dict_set "priceUsd" price d))
      = V6.categorize_token fos cfg (JDict d) /\
      V6.score_token fos (JDict (dict_set "priceUsd" price d))
      = V6.score_token fos (JDict d) /\
      V5.score_token fos (JDict (dict_set "priceUsd" price d))
      = V5.score_token fos (JDict d)).
Proof.
  split; [|split; [|split]].
  - apply categorize_token_reads.
  - intros H. split; [now apply v6_score_token_reads|now apply v5_score_token_reads].
  - apply risk_check_reads.
  - intros price. split; [|split].
    + apply categorize_token_reads, agree_dict_set. simpl. intuition discriminate.
    + apply v6_score_token_reads, agree_dict_set. simpl. intuition discriminate.
    + apply v5_score_token_reads, agree_dict_set. simpl. intuition discriminate.
Qed.

Lemma fields_read_witness :
  V6.categorize_token digits_float_of_str empty_config (priced_token 0.1)
  = V6.categorize_token digits_float_of_str empty_config (priced_token 0.2).
Proof.
  apply (fields_read digits_float_of_str empty_config).
  intros k Hin. simpl in Hin.
  repeat (destruct Hin as [<-|Hin]; [reflexivity|]). contradiction.
Defined.

(* ===================================================================== *)
(** ** When [buy_token] buys *)
(* ===================================================================== *)

Lemma risk_check_ignores_score fos (v : json) (d : list (string * json)) :
  V5.advanced_rug_pull_check fos (JDict (dict_set "score" v d))
  = V5.advanced_rug_pull_check fos (JDict d).
Proof.
  apply risk_check_reads, agree_dict_set. simpl. intuition discriminate.
Qed.

Lemma v5_execute_trade_buy real rpc (a : json) :
  outcome (V5.execute_trade real rpc a "buy")
  = if real then rpc else Ok (JFloat 0.1).
Proof.
  unfold V5.execute_trade, V5.send_sol_transfer. rewrite outcome_call.
  destruct real; [|reflexivity]. simpl str_in. cbv iota.
  rewrite !outcome_bind. simpl. destruct rpc; reflexivity.
Qed.

(** X6.  When [buy_token] of v5 opens a position.  On a record with score [s]
    that the risk check rates [risky], it returns no position when the score is
    below the threshold, the record is risky or it has no address.  Otherwise,
    in simulation it opens the position (record with its score, price 0.1,
    quantity 100); in real mode it raises what the RPC call raises, opens the
    same position when the call returns a truthy response, and none when the
    response is falsy. *)
Theorem v5_buy_token_opens fos real rpc (d : list (string * json))
    (s : float) (risky : bool) :
  outcome (V5.score_token fos (JDict d)) = Ok s ->
  outcome (V5.advanced_rug_pull_check fos (JDict d)) = Ok risky ->
  outcome (V5.buy_token fos real rpc (JDict d))
  = let opened :=
        Some (mkPosition (JDict (dict_set "score" (JFloat s) d)) 0.1 (10 / 0.1)) in
    let addr := match assoc "tokenAddress" d with Some a => a | None => JNull end in
    if (s <? 2.0)%float || risky || negb (py_truthy addr) then Ok None
    else if real
         then match rpc with
              | Raise e => Raise e
              | Ok resp => Ok (if py_truthy resp then opened else None)
              end
         else Ok opened.
Proof.
  intros Hs Hr. cbv zeta. unfold V5.buy_token.
  rewrite outcome_call, outcome_bind, Hs. simpl py_setitem.
  rewrite bind_lift_ok. unfold orM. rewrite bind_ret.
  change V5.MIN_SCORE_THRESHOLD with 2.0%float.
  destruct (s <? 2.0)%float.
  - rewrite bind_ret. reflexivity.
  - rewrite outcome_bind, risk_check_ignores_score, Hr.
    destruct risky; [reflexivity|].
    simpl py_get. rewrite (assoc_dict_set_other "score") by reflexivity.
    rewrite bind_lift_ok. simpl orb.
    destruct (py_truthy match assoc "tokenAddress" d with
                        | Some a => a
                        | None => JNull
                        end); simpl negb; cbv iota; [|reflexivity].
    rewrite outcome_bind, v5_execute_trade_buy.
    destruct real.
    + destruct rpc as [resp|e]; [|reflexivity].
      destruct (py_truthy resp); reflexivity.
    + reflexivity.
Qed.

Lemma v5_buy_token_opens_witness :
  outcome (V5.buy_token digits_float_of_str true (Raise RPCError) scenario_token)
  = Raise RPCError.
Proof.
  apply (v5_buy_token_opens digits_float_of_str true (Raise RPCError)
           [("tokenAddress", JStr "A"); ("marketCapUsd", JInt 500000);
            ("liquidityUsd", JInt 60000); ("volumeUsd24Hr", JInt 1500000);
            ("priceUsd", JFloat 0.1); ("pairAgeHours", JInt 10);
            ("txns1h", JInt 40)]
           (500000 / 100000 + 60000 / 50000 + 1500000 / 1000000)%float false);
    reflexivity.
Defined.

Lemma v6_execute_trade_buy real rpc (a : json) :
  outcome (V6.execute_trade real rpc a "buy")
  = if real then rpc else Ok (JFloat 0.1).
Proof.
  unfold V6.execute_trade, V6.send_sol_transfer. rewrite outcome_call.
  destruct real; [|reflexivity]. simpl str_in. cbv iota.
  rewrite !outcome_bind. simpl. destruct rpc; reflexivity.
Qed.

(** X7.  What [buy_token] of v6 returns on a record with category [c] and
    score [s].  Without a category, or with a score below the threshold, it
    returns no position and does not look up [advanced_rug_pull_check].
    Otherwise it calls that name: unbound, as in the script, the call raises
    [NameError]; bound to a function, the record is bought as in v5, when the
    function returns false and the record has an address. *)
Theorem v6_buy_token_returns fos real rpc cfg (arpc : option (json -> M bool))
    (d : list (string * json)) (c : option V6.category) (s : float) :
  outcome (V6.categorize_token fos cfg (JDict d)) = Ok c ->
  outcome (V6.score_token fos (JDict d)) = Ok s ->
  outcome (V6.buy_token fos real rpc cfg arpc (JDict d))
  = let scored := JDict (dict_set "score" (JFloat s) d) in
    let opened := Some (mkPosition scored 0.1 (10 / 0.1)) in
    let addr := match assoc "tokenAddress" d with Some a => a | None => JNull end in
    if V6.is_none c || (s <? 2.0)%float then Ok None
    else match arpc with
         | None => Raise NameError
         | Some check =>
             match outcome (check scored) with
             | Raise e => Raise e
             | Ok risky =>
                 if risky || negb (py_truthy addr) then Ok None
                 else if real
                      then match rpc with
                           | Raise e => Raise e
                           | Ok resp => Ok (if py_truthy resp then opened else None)
                           end
                      else Ok opened
             end
         end.
Proof.
  intros Hc Hs. cbv zeta. unfold V6.buy_token.
  rewrite outcome_call, outcome_bind, Hc, outcome_bind, Hs. simpl py_setitem.
  rewrite bind_lift_ok. unfold orM. rewrite bind_ret.
  change V6.MIN_SCORE_THRESHOLD with 2.0%float.
  destruct (V6.is_none c); simpl orb; cbv iota.
  - rewrite bind_ret. reflexivity.
  - rewrite bind_ret. destruct (s <? 2.0)%float.
    + rewrite bind_ret. reflexivity.
    + destruct arpc as [check|]; [|reflexivity].
      unfold V6.call_global. rewrite outcome_bind.
      destruct (outcome (check (JDict (dict_set "score" (JFloat s) d))))
        as [[|]|e]; try reflexivity.
      simpl py_get. rewrite (assoc_dict_set_other "score") by reflexivity.
      rewrite bind_lift_ok. simpl orb.
      destruct (py_truthy match assoc "tokenAddress" d with
                          | Some a => a
                          | None => JNull
                          end); simpl negb; cbv iota; [|reflexivity].
      rewrite outcome_bind, v6_execute_trade_buy.
      destruct real.
      * destruct rpc as [resp|e]; [|reflexivity].
        destruct (py_truthy resp); reflexivity.
      * reflexivity.
Qed.

Lemma v6_buy_token_returns_witness :
  outcome (V6.buy_token digits_float_of_str false (Ok JNull) empty_config None
             small_token) = Ok None.
Proof.
  apply (v6_buy_token_returns digits_float_of_str false (Ok JNull) empty_config None
           [("tokenAddress", JStr "B"); ("marketCapUsd", JInt 1000)]
           None (1000 / 100000 + 0 / 50000 + 0 / 1000000)%float);
    reflexivity.
Defined.

(* ===================================================================== *)
(** ** solana_bot_v1.py: the risk check and the buy *)
(* ===================================================================== *)

Lemma v1_risk_check_returns fos (t : json) :
  exists b, outcome (V1.advanced_rug_pull_check fos t) = Ok b.
Proof.
  unfold V1.advanced_rug_pull_check. rewrite outcome_call.
  apply try_except_returns. intros e. now exists true.
Qed.

(** The risk check of v1 passes a record exactly when both numbers parse,
    the volume is not below 1000 and the price not below 0.0001. *)
Lemma v1_risk_check_passes fos (t : json) :
  outcome (V1.advanced_rug_pull_check fos t) = Ok false <->
  exists vol pr,
    outcome (get_float fos t "volumeUsd") = Ok vol /\ (vol <? 1000)%float = false /\
    outcome (get_float fos t "priceUsd") = Ok pr /\ (pr <? 0.0001)%float = false.
Proof.
  unfold V1.advanced_rug_pull_check.
  rewrite outcome_call, outcome_try_except, outcome_bind.
  destruct (outcome (get_float fos t "volumeUsd")) as [vol|e] eqn:Ev.
  - destruct (vol <? 1000)%float eqn:Hv.
    + split.
      * rewrite outcome_bind.
        destruct (outcome (lift (V1.base_token_get "symbol" (JStr "Unknown") t)));
          discriminate.
      * intros (vol' & pr & [= <-] & Hv' & _). congruence.
    + rewrite outcome_bind.
      destruct (outcome (get_float fos t "priceUsd")) as [pr|e] eqn:Ep.
      * destruct (pr <? 0.0001)%float eqn:Hp.
        -- split.
           ++ rewrite outcome_bind.
              destruct (outcome (lift (V1.base_token_get "symbol" (JStr "Unknown") t)));
                discriminate.
           ++ intros (vol' & pr' & _ & _ & [= <-] & Hp'). congruence.
        -- split; [|reflexivity]. intros _. now exists vol, pr.
      * split; [discriminate|]. intros (vol' & pr' & _ & _ & H & _). discriminate H.
  - split; [discriminate|]. intros (vol' & pr' & H & _). discriminate H.
Qed.

Lemma v1_symbol_after_address (t a : json) :
  V1.base_token_get "address" JNull t = Ok a ->
  exists s, V1.base_token_get "symbol" (JStr "Unknown") t = Ok s.
Proof.
  unfold V1.base_token_get.
  destruct (py_get t "baseToken" (JDict [])) as [b|e]; [|discriminate].
  destruct b; simpl; try discriminate. intros _. now eexists.
Qed.

(** X8.  When [buy_token] of v1 opens a position.  The risk check passes a
    record exactly when its volume and its price parse and are not below 1000
    and 0.0001.  A record it flags is not bought.  A record it passes is
    bought when its [baseToken] has an address: the position holds the record
    as it came, at the price 0.1 and the quantity [RISK_AMOUNT / 0.1]; a
    [baseToken] that is not an object makes [buy_token] raise. *)
Theorem v1_buy_token_opens fos (t : json) (risky : bool) :
  outcome (V1.advanced_rug_pull_check fos t) = Ok risky ->
  (risky = false <->
   exists vol pr,
     outcome (get_float fos t "volumeUsd") = Ok vol /\ (vol <? 1000)%float = false /\
     outcome (get_float fos t "priceUsd") = Ok pr /\ (pr <? 0.0001)%float = false) /\
  outcome (V1.buy_token fos t)
  = if risky then Ok None
    else match V1.base_token_get "address" JNull t with
         | Raise e => Raise e
         | Ok a =>
             Ok (if py_truthy a
                 then Some (mkPosition t 0.1 (V1.RISK_AMOUNT / 0.1))
                 else None)
         end.
Proof.
  intros Hr. split.
  - rewrite <- v1_risk_check_passes, Hr. split; [now intros ->|now intros [= ->]].
  - unfold V1.buy_token. rewrite outcome_call, outcome_bind, Hr.
    destruct risky; [reflexivity|]. cbv iota.
    destruct (V1.base_token_get "address" JNull t) as [a|e] eqn:Ea;
      [|reflexivity].
    rewrite bind_lift_ok.
    destruct (py_truthy a); simpl negb; cbv iota; [|reflexivity].
    assert (Et : V1.execute_dex_trade a "buy"
                 = ([Call "execute_dex_trade:buy"; Print "[TRADE] Executing order"],
                    Ok 0.1%float)) by reflexivity.
    rewrite Et, bind_ok, outcome_mk.
    change (0.1 =? 0)%float with false. cbv iota.
    destruct (v1_symbol_after_address t a Ea) as [s Hsym].
    rewrite Hsym, bind_lift_ok. reflexivity.
Qed.

Lemma v1_buy_token_opens_witness :
  outcome (V1.buy_token digits_float_of_str (v1_record "AAA"))
  = Ok (Some (mkPosition (v1_record "AAA") 0.1 (V1.RISK_AMOUNT / 0.1))).
Proof.
  apply (v1_buy_token_opens digits_float_of_str (v1_record "AAA") false).
  reflexivity.
Defined.

(* ===================================================================== *)
(** ** The monitor sells once *)
(* ===================================================================== *)

Lemma sells_app (a b : trace) : sells (a ++ b)%list = (sells a + sells b)%nat.
Proof. unfold sells. now rewrite filter_app, length_app. Qed.

Lemma one_sale_after {A} (m : M A) (k : A -> M position_state) :
  sells (events m) = 0%nat ->
  (forall a, outcome m = Ok a -> one_sale (k a)) ->
  one_sale (bind m k).
Proof.
  intros Hm Hk. unfold one_sale. rewrite events_bind, outcome_bind.
  destruct (outcome m) as [a|e].
  - rewrite sells_app, Hm. exact (Hk a eq_refl).
  - rewrite Hm. repeat split; auto; try discriminate;
      try (intros [H|H]; discriminate H).
Qed.

Lemma one_sale_then (m rest : M position_state) :
  one_sale m -> one_sale rest ->
  one_sale (st <- m ;; match st with Open => rest | _ => ret st end).
Proof.
  intros (Hle & Hopen & Hclosed) Hrest. unfold one_sale.
  rewrite events_bind, outcome_bind.
  destruct (outcome m) as [[| |]|e].
  - rewrite sells_app, (Hopen eq_refl). exact Hrest.
  - rewrite sells_app, (Hclosed (or_introl eq_refl)). simpl.
    repeat split; auto; try discriminate.
  - rewrite sells_app, (Hclosed (or_intror eq_refl)). simpl.
    repeat split; auto; try discriminate.
  - repeat split; auto; try discriminate; try (intros [H|H]; discriminate H).
Qed.

Section MonitorRuns.

Variable fos : string -> option float.
Variable address_of : json -> result json.
Variable fetch : http_response -> M json.
Variable sell : position -> M json.
Variable p : position.

(** Fetching sells nothing; selling enters [sell_token] once. *)
Hypothesis fetch_sells : forall r, sells (events (fetch r)) = 0%nat.
Hypothesis sell_sells : sells (events (sell p)) = 1%nat.

Lemma monitor_decide_one_sale (target stop : float) (t : json) :
  one_sale (monitor_decide fos sell p target stop t).
Proof.
  unfold one_sale.
  destruct (outcome (get_float fos t "priceUsd")) as [cp|e] eqn:E.
  - rewrite (monitor_decide_cases fos sell p target stop t cp E).
    destruct (target <=? cp)%float; [|destruct (cp <=? stop)%float].
    + rewrite events_mk, outcome_mk.
      change (sells (Print "[MONITOR] current price"
                       :: Print "[MONITOR] Profit target reached." :: events (sell p)))
        with (sells (events (sell p))).
      rewrite sell_sells. repeat split; auto.
      destruct (outcome (sell p)); simpl; discriminate.
    + rewrite events_mk, outcome_mk.
      change (sells (Print "[MONITOR] current price"
                       :: Print "[MONITOR] Stop loss triggered." :: events (sell p)))
        with (sells (events (sell p))).
      rewrite sell_sells. repeat split; auto.
      destruct (outcome (sell p)); simpl; discriminate.
    + rewrite events_mk, outcome_mk. repeat split; auto.
      intros [H|H]; discriminate H.
  - unfold monitor_decide. rewrite events_bind, outcome_bind, E, get_float_events.
    repeat split; auto; try discriminate. intros [H|H]; discriminate H.
Qed.

Lemma monitor_loop_one_sale (addr : json) (target stop : float)
    (feed : list http_response) :
  one_sale (monitor_loop fos address_of fetch sell p addr target stop feed).
Proof.
  induction feed as [|r rest IH].
  - unfold one_sale. simpl.
    repeat split; auto; try discriminate; try (intros [H|H]; discriminate H).
  - cbn [monitor_loop].
    apply one_sale_after; [apply fetch_sells|intros tokens _].
    apply one_sale_after; [reflexivity|intros l _].
    apply one_sale_after; [reflexivity|intros ct _].
    destruct ct as [t|].
    + destruct (negb (py_truthy t)).
      * apply one_sale_after; [reflexivity|intros _ _; exact IH].
      * apply one_sale_then; [apply monitor_decide_one_sale|exact IH].
    + apply one_sale_after; [reflexivity|intros _ _; exact IH].
Qed.

Lemma monitor_position_one_sale (mult ratio : float) (feed : list http_response) :
  one_sale (monitor_position_with fos mult ratio address_of fetch sell p feed).
Proof.
  unfold monitor_position_with.
  apply one_sale_after; [reflexivity|intros _ _]. cbv zeta.
  apply one_sale_after; [reflexivity|intros addr _].
  apply monitor_loop_one_sale.
Qed.

End MonitorRuns.

Lemma v6_fetch_tokens_sells (r : http_response) :
  sells (events (V6.fetch_tokens r)) = 0%nat.
Proof. destruct r as [| |[]]; reflexivity. Qed.

Lemma v5_fetch_tokens_sells (r : http_response) :
  sells (events (V5.fetch_tokens r)) = 0%nat.
Proof. destruct r as [| |[]]; reflexivity. Qed.

Lemma v1_fetch_tokens_sells (r : http_response) :
  sells (events (V1.fetch_tokens r)) = 0%nat.
Proof. destruct r as [| |[]]; reflexivity. Qed.

Lemma v6_sell_token_sells real rpc (p : position) :
  sells (events (V6.sell_token real rpc p)) = 1%nat.
Proof.
  unfold V6.sell_token, V6.execute_trade, V6.send_sol_transfer.
  destruct (py_get (token p) "tokenAddress" JNull), real, rpc; reflexivity.
Qed.

Lemma v5_sell_token_sells real rpc (p : position) :
  sells (events (V5.sell_token real rpc p)) = 1%nat.
Proof.
  unfold V5.sell_token, V5.execute_trade, V5.send_sol_transfer.
  destruct (py_get (token p) "tokenAddress" JNull), real, rpc; reflexivity.
Qed.

Lemma v1_sell_token_sells (p : position) :
  sells (events (V1.sell_token p)) = 1%nat.
Proof.
  unfold V1.sell_token, V1.base_token_get.
  destruct (py_get (token p) "baseToken" (JDict [])) as [b|e]; [|reflexivity].
  destruct (py_get b "address" JNull); [|reflexivity].
  destruct (py_get b "symbol" (JStr "Unknown")); reflexivity.
Qed.

(** X9.  A monitor sells at most once.  Whatever the feed answers and
    whatever the trade does, a run of [monitor_position] (v6, v5, v1) enters
    [sell_token] at most once: not at all as long as the position is open,
    and exactly once when it has closed it on profit or on stop loss. *)
Theorem monitor_sells_once fos real rpc (p : position) (feed : list http_response) :
  one_sale (V6.monitor_position fos real rpc p feed) /\
  one_sale (V5Loop.monitor_position fos real rpc p feed) /\
  one_sale (V1.monitor_position fos p feed).
Proof.
  split; [|split].
  - exact (monitor_position_one_sale fos (fun t => py_get t "tokenAddress" JNull)
             V6.fetch_tokens (V6.sell_token real rpc) p
             v6_fetch_tokens_sells (v6_sell_token_sells real rpc p)
             V6.PROFIT_TARGET_MULTIPLIER V6.STOP_LOSS_RATIO feed).
  - exact (monitor_position_one_sale fos (fun t => py_get t "tokenAddress" JNull)
             V5.fetch_tokens (V5.sell_token real rpc) p
             v5_fetch_tokens_sells (v5_sell_token_sells real rpc p)
             V5.PROFIT_TARGET_MULTIPLIER V5.STOP_LOSS_RATIO feed).
  - exact (monitor_position_one_sale fos (V1.base_token_get "address" JNull)
             V1.fetch_tokens V1.sell_token p
             v1_fetch_tokens_sells (v1_sell_token_sells p)
             V1.PROFIT_TARGET_MULTIPLIER V1.STOP_LOSS_RATIO feed).
Qed.

(* ===================================================================== *)
(** ** The monitor waits *)
(* ===================================================================== *)

Lemma outcome_print {A} (msg : string) (m : M A) : outcome (print msg ;;; m) = outcome m.
Proof. unfold print. now rewrite bind_emit. Qed.

Section MonitorWaits.

Variable fos : string -> option float.
Variable address_of : json -> result json.
Variable fetch : http_response -> M json.
Variable sell : position -> M json.
Variable p : position.

Lemma monitor_loop_waits (addr : json) (target stop : float)
    (feed : list http_response) :
  Forall (absent fetch address_of addr) feed ->
  outcome (monitor_loop fos address_of fetch sell p addr target stop feed) = Ok Open.
Proof.
  intros H. induction H as [|r rest Hr _ IH]; [reflexivity|].
  destruct Hr as (tokens & l & ct & Hf & Hl & Hc & Hct).
  cbn [monitor_loop]. rewrite outcome_bind, Hf, Hl, bind_lift_ok, Hc, bind_lift_ok.
  destruct ct as [t|].
  - rewrite Hct. simpl negb. cbv iota. now rewrite outcome_print.
  - now rewrite outcome_print.
Qed.

Lemma monitor_position_waits (mult ratio : float) (addr : json)
    (feed : list http_response) :
  address_of (token p) = Ok addr ->
  Forall (absent fetch address_of addr) feed ->
  outcome (monitor_position_with fos mult ratio address_of fetch sell p feed) = Ok Open.
Proof.
  intros Ha H. unfold monitor_position_with.
  rewrite outcome_call. cbv zeta. rewrite Ha, bind_lift_ok.
  now apply monitor_loop_waits.
Qed.

End MonitorWaits.

Lemma fetch_failure_absent (key : json -> result json) (addr : json) (r : http_response) :
  r = ConnectionFails \/ r = NotJson ->
  absent V6.fetch_tokens key addr r /\
  absent V5.fetch_tokens key addr r /\
  absent V1.fetch_tokens key addr r.
Proof.
  intros [->| ->]; repeat split; exists (JList []), [], None; repeat split.
Qed.

(** X10.  A monitor waits for its token.  As long as the feed answers
    without a record for the address of the position (or with an empty one),
    [monitor_position] (v6, v5, v1) goes on polling: the position stays open
    and nothing is sold.  A failed request and a body that is not JSON are
    such answers: [fetch_tokens] turns them into the empty list. *)
Theorem monitor_waits fos real rpc (p : position) (addr : json)
    (feed : list http_response) :
  (py_get (token p) "tokenAddress" JNull = Ok addr ->
   Forall (absent V6.fetch_tokens (fun t => py_get t "tokenAddress" JNull) addr)
     feed ->
   outcome (V6.monitor_position fos real rpc p feed) = Ok Open /\
   sells (events (V6.monitor_position fos real rpc p feed)) = 0%nat) /\
  (py_get (token p) "tokenAddress" JNull = Ok addr ->
   Forall (absent V5.fetch_tokens (fun t => py_get t "tokenAddress" JNull) addr)
     feed ->
   outcome (V5Loop.monitor_position fos real rpc p feed) = Ok Open /\
   sells (events (V5Loop.monitor_position fos real rpc p feed)) = 0%nat) /\
  (V1.base_token_get "address" JNull (token p) = Ok addr ->
   Forall (absent V1.fetch_tokens (V1.base_token_get "address" JNull) addr) feed ->
   outcome (V1.monitor_position fos p feed) = Ok Open /\
   sells (events (V1.monitor_position fos p feed)) = 0%nat) /\
  (forall key r,
      r = ConnectionFails \/ r = NotJson ->
      absent V6.fetch_tokens key addr r /\
      absent V5.fetch_tokens key addr r /\
      absent V1.fetch_tokens key addr r).
Proof.
  split; [|split; [|split]].
  - intros Ha H.
    assert (O : outcome (V6.monitor_position fos real rpc p feed) = Ok Open)
      by (apply (monitor_position_waits fos _ _ _ p _ _ addr feed Ha H)).
    split; [exact O|].
    destruct (monitor_position_one_sale fos
                (fun t => py_get t "tokenAddress" JNull)
                V6.fetch_tokens (V6.sell_token real rpc) p
                v6_fetch_tokens_sells (v6_sell_token_sells real rpc p)
                V6.PROFIT_TARGET_MULTIPLIER V6.STOP_LOSS_RATIO feed)
      as (_ & Hopen & _).
    exact (Hopen O).
  - intros Ha H.
    assert (O : outcome (V5Loop.monitor_position fos real rpc p feed) = Ok Open)
      by (apply (monitor_position_waits fos _ _ _ p _ _ addr feed Ha H)).
    split; [exact O|].
    destruct (monitor_position_one_sale fos
                (fun t => py_get t "tokenAddress" JNull)
                V5.fetch_tokens (V5.sell_token real rpc) p
                v5_fetch_tokens_sells (v5_sell_token_sells real rpc p)
                V5.PROFIT_TARGET_MULTIPLIER V5.STOP_LOSS_RATIO feed)
      as (_ & Hopen & _).
    exact (Hopen O).
  - intros Ha H.
    assert (O : outcome (V1.monitor_position fos p feed) = Ok Open)
      by (apply (monitor_position_waits fos _ _ _ p _ _ addr feed Ha H)).
    split; [exact O|].
    destruct (monitor_position_one_sale fos (V1.base_token_get "address" JNull)
                V1.fetch_tokens V1.sell_token p
                v1_fetch_tokens_sells (v1_sell_token_sells p)
                V1.PROFIT_TARGET_MULTIPLIER V1.STOP_LOSS_RATIO feed)
      as (_ & Hopen & _).
    exact (Hopen O).
  - intros key r. apply fetch_failure_absent.
Qed.

Lemma monitor_waits_witness :
  outcome (V6.monitor_position digits_float_of_str true (Raise RPCError) (bought 0.1)
             [ConnectionFails; NotJson; Body (JList [small_token])]) = Ok Open.
Proof.
  destruct (monitor_waits digits_float_of_str true (Raise RPCError) (bought 0.1)
              (JStr "A") [ConnectionFails; NotJson; Body (JList [small_token])])
    as (H & _).
  apply H; [reflexivity|].
  repeat constructor.
  - exists (JList []), [], None. repeat split.
  - exists (JList []), [], None. repeat split.
  - exists (JList [small_token]), [small_token], None. repeat split.
Defined.

(* ===================================================================== *)
(** ** What the main loop keeps *)
(* ===================================================================== *)

Lemma extends_refl (ps : list position) (ds : pyset) : extends ps ds ps ds.
Proof. exists [], []. now rewrite !app_nil_r. Qed.

Lemma extends_trans (ps ps1 ps2 : list position) (ds ds1 ds2 : pyset) :
  extends ps ds ps1 ds1 -> extends ps1 ds1 ps2 ds2 -> extends ps ds ps2 ds2.
Proof.
  intros (a & b & -> & -> & H) (a' & b' & -> & -> & H').
  exists (a ++ a')%list, (b ++ b')%list. rewrite !app_assoc, !length_app.
  repeat split. now apply Nat.add_le_mono.
Qed.

(** A new key goes to the end of the set. *)
Lemma set_add_new (k : json) (s s1 : pyset) :
  set_mem k s = Ok false -> set_add k s = Ok s1 ->
  s1 = (s ++ [k])%list /\ existsb (py_eq k) s = false.
Proof.
  unfold set_mem, set_add. destruct (hashable k); [|discriminate].
  destruct (existsb (py_eq k) s); [discriminate|]. now intros _ [= <-].
Qed.

Lemma distinct_snoc (k : json) (s : pyset) :
  distinct s -> existsb (py_eq k) s = false -> distinct (s ++ [k])%list.
Proof.
  induction s as [|v r IH]; simpl.
  - intros _ _. split; constructor.
  - intros [Hv Hr] Hk. apply orb_false_iff in Hk. destruct Hk as [Hkv Hkr].
    split; [|now apply IH].
    apply Forall_app. split; [exact Hv|]. now constructor.
Qed.

Lemma extends_bought (ps : list position) (ds : pyset) (pos : position) (k : json) :
  extends ps ds (ps ++ [pos])%list (ds ++ [k])%list.
Proof. exists [pos], [k]. repeat split. apply le_n. Qed.

Lemma extends_skipped (ps : list position) (ds : pyset) (k : json) :
  extends ps ds ps (ds ++ [k])%list.
Proof. exists [], [k]. rewrite app_nil_r. repeat split. apply Nat.le_0_l. Qed.

Lemma v6_discovery_grows fos real rpc cfg arpc (l : list json) :
  forall st st',
    outcome (V6.discovery_loop fos real rpc cfg arpc l st) = Ok st' ->
    extends (V6.positions st) (V6.discovered st)
            (V6.positions st') (V6.discovered st') /\
    (distinct (V6.discovered st) -> distinct (V6.discovered st')).
Proof.
  induction l as [|t rest IH]; intros st st' H.
  - injection H as <-. split; [apply extends_refl|trivial].
  - cbn [V6.discovery_loop] in H.
    apply outcome_bind_ok in H. destruct H as [sym [_ H]].
    apply outcome_bind_ok in H. destruct H as [c [_ H]].
    destruct (V6.is_none c); [exact (IH _ _ H)|].
    apply outcome_bind_ok in H. destruct H as [[|] [Hmem H]].
    + exact (IH _ _ H).
    + apply outcome_bind_ok in H. destruct H as [discovered' [Hadd H]].
      apply outcome_bind_ok in H. destruct H as [_ [_ H]].
      apply outcome_bind_ok in H. destruct H as [pos [_ H]].
      destruct (set_add_new _ _ _ Hmem Hadd) as [-> Hnew].
      destruct pos as [pos|].
      * apply outcome_bind_ok in H. destruct H as [_ [_ H]].
        destruct (IH _ _ H) as [E D]. simpl in E, D. split.
        -- eapply extends_trans; [apply extends_bought|exact E].
        -- intros Hd. apply D. now apply distinct_snoc.
      * destruct (IH _ _ H) as [E D]. simpl in E, D. split.
        -- eapply extends_trans; [apply extends_skipped|exact E].
        -- intros Hd. apply D. now apply distinct_snoc.
Qed.

Lemma v5_discovery_grows fos real rpc (l : list json) :
  forall st st',
    outcome (V5Loop.discovery_loop fos real rpc l st) = Ok st' ->
    extends (V5Loop.positions st) (V5Loop.discovered st)
            (V5Loop.positions st') (V5Loop.discovered st') /\
    (distinct (V5Loop.discovered st) -> distinct (V5Loop.discovered st')).
Proof.
  induction l as [|t rest IH]; intros st st' H.
  - injection H as <-. split; [apply extends_refl|trivial].
  - cbn [V5Loop.discovery_loop] in H.
    apply outcome_bind_ok in H. destruct H as [sym [_ H]].
    apply outcome_bind_ok in H. destruct H as [[|] [Hmem H]].
    + exact (IH _ _ H).
    + apply outcome_bind_ok in H. destruct H as [discovered' [Hadd H]].
      apply outcome_bind_ok in H. destruct H as [_ [_ H]].
      apply outcome_bind_ok in H. destruct H as [pos [_ H]].
      destruct (set_add_new _ _ _ Hmem Hadd) as [-> Hnew].
      destruct pos as [pos|].
      * apply outcome_bind_ok in H. destruct H as [_ [_ H]].
        destruct (IH _ _ H) as [E D]. simpl in E, D. split.
        -- eapply extends_trans; [apply extends_bought|exact E].
        -- intros Hd. apply D. now apply distinct_snoc.
      * destruct (IH _ _ H) as [E D]. simpl in E, D. split.
        -- eapply extends_trans; [apply extends_skipped|exact E].
        -- intros Hd. apply D. now apply distinct_snoc.
Qed.

Lemma v1_discovery_grows fos (l : list json) :
  forall st st',
    outcome (V1.discovery_loop fos l st) = Ok st' ->
    extends (V1.positions st) (V1.discovered st)
            (V1.positions st') (V1.discovered st') /\
    (distinct (V1.discovered st) -> distinct (V1.discovered st')).
Proof.
  induction l as [|t rest IH]; intros st st' H.
  - injection H as <-. split; [apply extends_refl|trivial].
  - cbn [V1.discovery_loop] in H.
    apply outcome_bind_ok in H. destruct H as [symbol [_ H]].
    apply outcome_bind_ok in H. destruct H as [[|] [Hmem H]].
    + exact (IH _ _ H).
    + destruct (negb (py_truthy symbol)); [discriminate Hmem|].
      apply outcome_bind_ok in H. destruct H as [discovered' [Hadd H]].
      apply outcome_bind_ok in H. destruct H as [_ [_ H]].
      apply outcome_bind_ok in H. destruct H as [pos [_ H]].
      destruct (set_add_new _ _ _ Hmem Hadd) as [-> Hnew].
      destruct pos as [pos|].
      * apply outcome_bind_ok in H. destruct H as [_ [_ H]].
        destruct (IH _ _ H) as [E D]. simpl in E, D. split.
        -- eapply extends_trans; [apply extends_bought|exact E].
        -- intros Hd. apply D. now apply distinct_snoc.
      * destruct (IH _ _ H) as [E D]. simpl in E, D. split.
        -- eapply extends_trans; [apply extends_skipped|exact E].
        -- intros Hd. apply D. now apply distinct_snoc.
Qed.

Lemma v6_main_loop_grows fos real rpc cfg arpc (feed : list http_response) :
  forall st st',
    outcome (V6.main_loop fos real rpc cfg arpc feed st) = Ok st' ->
    extends (V6.positions st) (V6.discovered st)
            (V6.positions st') (V6.discovered st') /\
    (distinct (V6.discovered st) -> distinct (V6.discovered st')).
Proof.
  induction feed as [|r rest IH]; intros st st' H.
  - injection H as <-. split; [apply extends_refl|trivial].
  - cbn [V6.main_loop] in H.
    apply outcome_bind_ok in H. destruct H as [st1 [Htick H]].
    destruct (IH _ _ H) as [E D].
    assert (T : extends (V6.positions st) (V6.discovered st)
                        (V6.positions st1) (V6.discovered st1) /\
                (distinct (V6.discovered st) -> distinct (V6.discovered st1))).
    { unfold V6.main_tick in Htick.
      apply outcome_bind_ok in Htick. destruct Htick as [tokens [_ Htick]].
      destruct (py_truthy tokens).
      - apply outcome_bind_ok in Htick. destruct Htick as [l [_ Htick]].
        exact (v6_discovery_grows fos real rpc cfg arpc l _ _ Htick).
      - apply outcome_bind_ok in Htick. destruct Htick as [_ [_ Htick]].
        injection Htick as <-. split; [apply extends_refl|trivial]. }
    destruct T as [E1 D1]. split; [exact (extends_trans _ _ _ _ _ _ E1 E)|auto].
Qed.

Lemma v5_main_loop_grows fos real rpc (feed : list http_response) :
  forall st st',
    outcome (V5Loop.main_loop fos real rpc feed st) = Ok st' ->
    extends (V5Loop.positions st) (V5Loop.discovered st)
            (V5Loop.positions st') (V5Loop.discovered st') /\
    (distinct (V5Loop.discovered st) -> distinct (V5Loop.discovered st')).
Proof.
  induction feed as [|r rest IH]; intros st st' H.
  - injection H as <-. split; [apply extends_refl|trivial].
  - cbn [V5Loop.main_loop] in H.
    apply outcome_bind_ok in H. destruct H as [st1 [Htick H]].
    destruct (IH _ _ H) as [E D].
    assert (T : extends (V5Loop.positions st) (V5Loop.discovered st)
                        (V5Loop.positions st1) (V5Loop.discovered st1) /\
                (distinct (V5Loop.discovered st) ->
                 distinct (V5Loop.discovered st1))).
    { unfold V5Loop.main_tick in Htick.
      apply outcome_bind_ok in Htick. destruct Htick as [tokens [_ Htick]].
      destruct (py_truthy tokens).
      - apply outcome_bind_ok in Htick. destruct Htick as [l [_ Htick]].
        exact (v5_discovery_grows fos real rpc l _ _ Htick).
      - apply outcome_bind_ok in Htick. destruct Htick as [_ [_ Htick]].
        injection Htick as <-. split; [apply extends_refl|trivial]. }
    destruct T as [E1 D1]. split; [exact (extends_trans _ _ _ _ _ _ E1 E)|auto].
Qed.

Lemma v1_main_loop_grows fos (feed : list http_response) :
  forall st st',
    outcome (V1.main_loop fos feed st) = Ok st' ->
    extends (V1.positions st) (V1.discovered st)
            (V1.positions st') (V1.discovered st') /\
    (distinct (V1.discovered st) -> distinct (V1.discovered st')).
Proof.
  induction feed as [|r rest IH]; intros st st' H.
  - injection H as <-. split; [apply extends_refl|trivial].
  - cbn [V1.main_loop] in H.
    apply outcome_bind_ok in H. destruct H as [st1 [Htick H]].
    destruct (IH _ _ H) as [E D].
    assert (T : extends (V1.positions st) (V1.discovered st)
                        (V1.positions st1) (V1.discovered st1) /\
                (distinct (V1.discovered st) -> distinct (V1.discovered st1))).
    { unfold V1.main_tick in Htick.
      apply outcome_bind_ok in Htick. destruct Htick as [tokens [_ Htick]].
      destruct (py_truthy tokens).
      - apply outcome_bind_ok in Htick. destruct Htick as [l [_ Htick]].
        exact (v1_discovery_grows fos l _ _ Htick).
      - apply outcome_bind_ok in Htick. destruct Htick as [_ [_ Htick]].
        injection Htick as <-. split; [apply extends_refl|trivial]. }
    destruct T as [E1 D1]. split; [exact (extends_trans _ _ _ _ _ _ E1 E)|auto].
Qed.

Lemma extends_from_empty (ps : list position) (ds : pyset) :
  extends [] [] ps ds -> (List.length ps <= List.length ds)%nat.
Proof. intros (a & b & -> & -> & H). exact H. Qed.

(** X11.  The main loop only appends.  After any number of ticks of [main]
    (v6, v5, v1) the positions and the set of discovered keys are those it
    had before, followed by what the ticks appended, with no more new
    positions than new keys; and keys that were pairwise different stay so.
    From the empty start: there are never more positions than discovered
    keys, and no key is in the set twice. *)
Theorem main_only_appends fos real rpc cfg arpc (feed : list http_response) :
  (forall st st',
      outcome (V6.main_loop fos real rpc cfg arpc feed st) = Ok st' ->
      extends (V6.positions st) (V6.discovered st)
              (V6.positions st') (V6.discovered st') /\
      (distinct (V6.discovered st) -> distinct (V6.discovered st'))) /\
  (forall st st',
      outcome (V5Loop.main_loop fos real rpc feed st) = Ok st' ->
      extends (V5Loop.positions st) (V5Loop.discovered st)
              (V5Loop.positions st') (V5Loop.discovered st') /\
      (distinct (V5Loop.discovered st) -> distinct (V5Loop.discovered st'))) /\
  (forall st st',
      outcome (V1.main_loop fos feed st) = Ok st' ->
      extends (V1.positions st) (V1.discovered st)
              (V1.positions st') (V1.discovered st') /\
      (distinct (V1.discovered st) -> distinct (V1.discovered st'))) /\
  (forall st,
      outcome (V6.main fos real rpc cfg arpc feed) = Ok st ->
      (List.length (V6.positions st) <= List.length (V6.discovered st))%nat /\
      distinct (V6.discovered st)) /\
  (forall st,
      outcome (V5Loop.main fos real rpc feed) = Ok st ->
      (List.length (V5Loop.positions st) <= List.length (V5Loop.discovered st))%nat /\
      distinct (V5Loop.discovered st)) /\
  (forall st,
      outcome (V1.main fos feed) = Ok st ->
      (List.length (V1.positions st) <= List.length (V1.discovered st))%nat /\
      distinct (V1.discovered st)).
Proof.
  split; [|split; [|split; [|split; [|split]]]].
  - apply v6_main_loop_grows.
  - apply v5_main_loop_grows.
  - apply v1_main_loop_grows.
  - intros st H. destruct (v6_main_loop_grows _ _ _ _ _ _ _ _ H) as [E D].
    split; [exact (extends_from_empty _ _ E)|exact (D I)].
  - intros st H. destruct (v5_main_loop_grows _ _ _ _ _ _ H) as [E D].
    split; [exact (extends_from_empty _ _ E)|exact (D I)].
  - intros st H. destruct (v1_main_loop_grows _ _ _ _ H) as [E D].
    split; [exact (extends_from_empty _ _ E)|exact (D I)].
Qed.

Lemma main_only_appends_witness :
  (2 <= 2)%nat /\ distinct [JStr "AAA"; JStr "BBB"].
Proof.
  destruct (main_only_appends digits_float_of_str false (Ok JNull) empty_config None
              [same_address_feed]) as (_ & _ & _ & _ & _ & H).
  apply (H (V1.mkState [mkPosition (v1_record "AAA") 0.1 (V1.RISK_AMOUNT / 0.1);
                        mkPosition (v1_record "BBB") 0.1 (V1.RISK_AMOUNT / 0.1)]
                       [JStr "AAA"; JStr "BBB"])).
  vm_compute. reflexivity.
Defined.
